(** * acitoolkit: the AAEP object model (aaep.py) and the logical model root
      (logicalmodel.py), embedded in Rocq.

    The embedding follows the Python sources function by function.  Python
    values are a small tagged union, instances live in a heap addressed by
    references (so that a parent and the children attached to it are shared),
    attribute dictionaries are finite maps keyed by strings, and a method
    that can raise returns a [result]. *)

From Stdlib Require Import ZArith String Ascii List Bool Lia.
From stdpp Require Import base option list gmap strings fin_maps pretty.

Local Open Scope Z_scope.

(** ** Python values *)

(** The scalar values that attributes and constructor arguments take: [None],
    booleans, integers and strings.  Strings are sequences of characters with
    code points below 256. *)
Inductive pyval : Type :=
| PyNone
| PyBool (b : bool)
| PyInt (z : Z)
| PyStr (s : string).

#[global] Instance pyval_eq_dec : EqDecision pyval.
Proof. solve_decision. Defined.

(** [bool(v)]: what [if v:] tests. *)
Definition py_truthy (v : pyval) : bool :=
  match v with
  | PyNone => false
  | PyBool b => b
  | PyInt z => negb (Z.eqb z 0)
  | PyStr s => negb (String.eqb s "")
  end.

(** [str(v)] (Python 3). *)
Definition py_str (v : pyval) : string :=
  match v with
  | PyNone => "None"
  | PyBool true => "True"
  | PyBool false => "False"
  | PyInt z => pretty z
  | PyStr s => s
  end.

(** [a == b] between a string and an arbitrary scalar: a string is only ever
    equal to a string with the same characters. *)
Definition py_str_eq (a : string) (b : pyval) : bool :=
  match b with
  | PyStr s => String.eqb a s
  | _ => false
  end.

(** Slices [s[:n]] and [s[n:]]; both saturate on short strings. *)
Fixpoint str_take (n : nat) (s : string) : string :=
  match n, s with
  | S n', String c s' => String c (str_take n' s')
  | _, _ => ""
  end.

Fixpoint str_drop (n : nat) (s : string) : string :=
  match n, s with
  | S n', String _ s' => str_drop n' s'
  | _, _ => s
  end.

(** ** [int(str)]

    The built-in [int] applied to a string, base 10: the literal may be
    surrounded by whitespace and preceded by one sign (no space after the
    sign); the digits may be grouped with single underscores (Python 3.6 and
    later).  [None] stands for [ValueError].  Only ASCII digits and
    whitespace are recognised, and the interpreter's optional limit on the
    number of digits is not modelled. *)
Module PyInt.

Definition is_space (c : ascii) : bool :=
  let n := nat_of_ascii c in
  ((9 <=? n)%nat && (n <=? 13)%nat) || ((28 <=? n)%nat && (n <=? 32)%nat).

Definition digit (c : ascii) : option Z :=
  let n := nat_of_ascii c in
  if ((48 <=? n)%nat && (n <=? 57)%nat) then Some (Z.of_nat n - 48) else None.

Fixpoint lstrip (s : string) : string :=
  match s with
  | String c s' => if is_space c then lstrip s' else s
  | EmptyString => EmptyString
  end.

Fixpoint rstrip (s : string) : string :=
  match s with
  | String c s' =>
      match rstrip s' with
      | EmptyString => if is_space c then EmptyString else String c EmptyString
      | r => String c r
      end
  | EmptyString => EmptyString
  end.

Definition strip (s : string) : string := rstrip (lstrip s).

(** Digits with optional single underscores between them; [after_digit]
    tells whether the previous character was a digit. *)
Fixpoint digits (acc : Z) (after_digit : bool) (s : string) : option Z :=
  match s with
  | EmptyString => if after_digit then Some acc else None
  | String c s' =>
      match digit c with
      | Some d => digits (10 * acc + d) true s'
      | None =>
          if Ascii.eqb c "_"%char && after_digit then digits acc false s' else None
      end
  end.

Definition parse (s : string) : option Z :=
  match strip s with
  | String "+"%char s' => digits 0 false s'
  | String "-"%char s' => Z.opp <$> digits 0 false s'
  | s' => digits 0 false s'
  end.

End PyInt.

(** ** Exceptions and results

    [ReferenceError] is raised by the model when a reference does not
    designate an instance of the heap, which a running program cannot
    observe; [TransportError] stands for whatever the session raises. *)

Inductive exn : Type :=
| TypeError (msg : string)
| ValueError (msg : string)
| KeyError (key : string)
| AttributeError (msg : string)
| ReferenceError
| TransportError (msg : string).

Inductive result (A : Type) : Type :=
| Ok (a : A)
| Raise (e : exn).
Arguments Ok {A} a.
Arguments Raise {A} e.

(** ** [AAEP_EPG.is_valid_encap] *)

(** [is_valid_encap] is a static method; it does not look at any instance. *)
Definition is_valid_encap (encap : pyval) : bool :=
  match encap with
  | PyStr s =>
      if negb (String.eqb (str_take 5 s) "vlan-") then false
      else
        match PyInt.parse (str_drop 5 s) with
        | None => false
        | Some vlan => if Z.ltb vlan 1 || Z.gtb vlan 4094 then false else true
        end
  | _ => false
  end.

(** ** Attribute dictionaries and controller records *)

(** A Python [dict] keyed by attribute names.  The controller's decoded read
    body has the shape
    [{ "imdata": [ { "<class>": { "attributes": {...} } }, ... ] }]. *)
Abbreviation attributes := (gmap string pyval).
Abbreviation managed_object := (gmap string attributes).
Abbreviation record := (gmap string managed_object).
Abbreviation body := (gmap string (list record)).

(** [d.get(k)]: [None] when the key is absent. *)
Definition dict_get (d : attributes) (k : string) : pyval :=
  default PyNone (d !! k).

(** The [Session] collaborator (acisession.py is outside this development):
    [get(url)] answers with a decoded JSON body or raises. *)
Record Session : Type := { session_get : string -> result body }.

(** ** Instances and the heap *)

Abbreviation ref := nat.

Inductive pyclass : Type :=
| cls_AAEP
| cls_AAEP_EPG
| cls_AAEP_PhysDomain
| cls_LogicalModel
| cls_EPG
| cls_Tenant
| cls_PhysDomain
| cls_Fabric.

#[global] Instance pyclass_eq_dec : EqDecision pyclass.
Proof. solve_decision. Defined.

(** A constructor argument is a scalar or a reference to an instance. *)
Inductive pyarg : Type :=
| AVal (v : pyval)
| AObj (r : ref).

(** Instances are truthy: none of the classes defines [__bool__] or
    [__len__]. *)
Definition arg_truthy (a : pyarg) : bool :=
  match a with
  | AVal v => py_truthy v
  | AObj _ => true
  end.

(** One instance: its class and the attributes the two modules assign. *)
Record node : Type := mkNode {
  n_class : pyclass;
  name : pyval;
  descr : pyval;
  dn : pyval;
  lcOwn : pyval;
  childAction : pyval;
  tDn : pyval;
  encap : pyval;
  epg : pyarg;
  _parent : pyarg;
  _children : list ref;
  _session : option Session
}.

Definition blank (c : pyclass) : node :=
  mkNode c PyNone PyNone PyNone PyNone PyNone PyNone PyNone
         (AVal PyNone) (AVal PyNone) [] None.

Definition set_name (v : pyval) (n : node) : node :=
  mkNode (n_class n) v (descr n) (dn n) (lcOwn n) (childAction n) (tDn n)
         (encap n) (epg n) (_parent n) (_children n) (_session n).
Definition set_descr (v : pyval) (n : node) : node :=
  mkNode (n_class n) (name n) v (dn n) (lcOwn n) (childAction n) (tDn n)
         (encap n) (epg n) (_parent n) (_children n) (_session n).
Definition set_dn (v : pyval) (n : node) : node :=
  mkNode (n_class n) (name n) (descr n) v (lcOwn n) (childAction n) (tDn n)
         (encap n) (epg n) (_parent n) (_children n) (_session n).
Definition set_lcOwn (v : pyval) (n : node) : node :=
  mkNode (n_class n) (name n) (descr n) (dn n) v (childAction n) (tDn n)
         (encap n) (epg n) (_parent n) (_children n) (_session n).
Definition set_childAction (v : pyval) (n : node) : node :=
  mkNode (n_class n) (name n) (descr n) (dn n) (lcOwn n) v (tDn n)
         (encap n) (epg n) (_parent n) (_children n) (_session n).
Definition set_tDn (v : pyval) (n : node) : node :=
  mkNode (n_class n) (name n) (descr n) (dn n) (lcOwn n) (childAction n) v
         (encap n) (epg n) (_parent n) (_children n) (_session n).
Definition set_encap (v : pyval) (n : node) : node :=
  mkNode (n_class n) (name n) (descr n) (dn n) (lcOwn n) (childAction n)
         (tDn n) v (epg n) (_parent n) (_children n) (_session n).
Definition set_epg (a : pyarg) (n : node) : node :=
  mkNode (n_class n) (name n) (descr n) (dn n) (lcOwn n) (childAction n)
         (tDn n) (encap n) a (_parent n) (_children n) (_session n).
Definition set_parent (a : pyarg) (n : node) : node :=
  mkNode (n_class n) (name n) (descr n) (dn n) (lcOwn n) (childAction n)
         (tDn n) (encap n) (epg n) a (_children n) (_session n).
Definition set_children (l : list ref) (n : node) : node :=
  mkNode (n_class n) (name n) (descr n) (dn n) (lcOwn n) (childAction n)
         (tDn n) (encap n) (epg n) (_parent n) l (_session n).
Definition set_session (s : option Session) (n : node) : node :=
  mkNode (n_class n) (name n) (descr n) (dn n) (lcOwn n) (childAction n)
         (tDn n) (encap n) (epg n) (_parent n) (_children n) s.

Abbreviation heap := (list node).

(** ** The heap monad: a method reads and writes the heap and returns or
    raises; the heap at the point of a raise is kept. *)
Definition M (A : Type) : Type := heap -> result A * heap.

#[global] Instance M_ret : MRet M := fun A a h => (Ok a, h).
#[global] Instance M_bind : MBind M := fun A B f m h =>
  match m h with
  | (Ok a, h') => f a h'
  | (Raise e, h') => (Raise e, h')
  end.

Definition raise {A : Type} (e : exn) : M A := fun h => (Raise e, h).

Definition lift {A : Type} (r : result A) : M A := fun h => (r, h).

(** Allocation of a fresh instance, before [__init__] runs. *)
Definition new_object (c : pyclass) : M ref :=
  fun h => (Ok (List.length h), h ++ [blank c]).

Definition read (r : ref) : M node :=
  fun h => match h !! r with
           | Some n => (Ok n, h)
           | None => (Raise ReferenceError, h)
           end.

(** Attribute assignment on the instance at [r]. *)
Definition update (r : ref) (f : node -> node) : M unit :=
  fun h => match h !! r with
           | Some n => (Ok tt, <[r := f n]> h)
           | None => (Raise ReferenceError, h)
           end.

(** [d[k]]: raises [KeyError] when the key is absent. *)
Definition item {V : Type} (d : gmap string V) (k : string) : M V :=
  match d !! k with
  | Some v => mret v
  | None => raise (KeyError k)
  end.

(** [isinstance(a, c)]: only an instance whose class is [c] qualifies (no
    class of these modules is subclassed). *)
Definition isinstance (a : pyarg) (c : pyclass) : M bool :=
  fun h => match a with
           | AObj r => match h !! r with
                       | Some n => (Ok (bool_decide (n_class n = c)), h)
                       | None => (Raise ReferenceError, h)
                       end
           | AVal _ => (Ok false, h)
           end.

(** ** [BaseACIObject] (acibaseobject.py) *)
Module BaseACIObject.

(** Modelled from the spec: acibaseobject.py is missing.  The node layer
    keeps the identity, the parent back-reference and the ordered children
    collection; constructing a node under a parent links it at the end of
    the parent's children.  A parent that is neither [None] nor an instance
    is a type mismatch. *)
Definition __init__ (self : ref) (nm : pyval) (parent : pyarg) : M unit :=
  update self (fun n => set_children [] (set_parent parent (set_name nm n))) ;;
  match parent with
  | AVal PyNone => mret tt
  | AObj p => update p (fun n => set_children (_children n ++ [self]) n)
  | AVal _ => raise (TypeError "Parent object must be an instance")
  end.

(** Modelled from the spec: acibaseobject.py is missing.  The DN is read
    from the attribute mapping and defaults to [None] when absent. *)
Definition get_dn_from_attributes (a : attributes) : pyval :=
  dict_get a "dn".

(** Modelled from the spec: acibaseobject.py is missing.  The generic node
    decodes the attributes every managed object carries (DN, lifecycle
    owner, child action), each defaulting to [None] when absent. *)
Definition _populate_from_attributes (self : ref) (a : attributes) : M unit :=
  update self (set_dn (get_dn_from_attributes a)) ;;
  update self (set_lcOwn (dict_get a "lcOwn")) ;;
  update self (set_childAction (dict_get a "childAction")).

End BaseACIObject.

(** ** [class AAEP_EPG] (aaep.py) *)
Module AAEP_EPG.

Definition _get_apic_classes : list string := ["infraRsFuncToEpg"].

Definition _get_parent_class : pyclass := cls_AAEP.

Definition get_url (fmt : string) : string := "/api/mo/uni." +:+ fmt.

(** [epg.dn] for the [epg] argument of the constructor. *)
Definition epg_dn (epg : pyarg) : M pyval :=
  match epg with
  | AObj e => n ← read e; mret (dn n)
  | AVal _ => raise (AttributeError "object has no attribute 'dn'")
  end.

Definition __init__ (self : ref) (parent epg : pyarg) (encap : pyval)
  : M unit :=
  (if arg_truthy parent then
     ok ← isinstance parent cls_AAEP;
     if negb ok
     then raise (TypeError "Parent must be instance of AccessEntityProfile")
     else mret tt
   else mret tt) ;;
  (if arg_truthy epg then
     ok ← isinstance epg cls_EPG;
     if negb ok
     then raise (TypeError "epg parameter must be instance of EPG class")
     else mret tt
   else mret tt) ;;
  BaseACIObject.__init__ self (PyStr "asdf") parent ;;
  update self (set_dn PyNone) ;;
  update self (set_lcOwn PyNone) ;;
  update self (set_childAction PyNone) ;;
  update self (set_epg epg) ;;
  (if arg_truthy epg then
     d ← epg_dn epg; update self (set_tDn d)
   else update self (set_tDn PyNone)) ;;
  (if py_truthy encap then
     if negb (is_valid_encap encap)
     then raise (ValueError ("Invalid encapsulation string: "
                             +:+ str_take 20 (py_str encap)))
     else mret tt
   else mret tt) ;;
  update self (set_encap encap).

(** The call [AAEP_EPG(parent, epg, encap)]. *)
Definition new (parent epg : pyarg) (encap : pyval) : M ref :=
  self ← new_object cls_AAEP_EPG;
  __init__ self parent epg encap ;;
  mret self.

Definition _generate_attributes (self : node) : attributes :=
  let a0 : attributes := ∅ in
  let a1 := if py_truthy (dn self) then <["dn" := dn self]> a0 else a0 in
  let a2 := if py_truthy (lcOwn self)
            then <["lcOwn" := lcOwn self]> a1 else a1 in
  let a3 := if py_truthy (childAction self)
            then <["childAction" := childAction self]> a2 else a2 in
  let a4 := if py_truthy (tDn self) then <["tDn" := tDn self]> a3 else a3 in
  if py_truthy (encap self) then <["encap" := encap self]> a4 else a4.

Definition _populate_from_attributes (self : ref) (a : attributes)
  : M unit :=
  update self (set_dn (BaseACIObject.get_dn_from_attributes a)) ;;
  update self (set_lcOwn (dict_get a "lcOwn")) ;;
  update self (set_childAction (dict_get a "childAction")) ;;
  update self (set_tDn (dict_get a "tDn")) ;;
  update self (set_encap (dict_get a "encap")).

(** [get_parent] *)
Definition get_parent (self : ref) : M pyarg :=
  n ← read self; mret (_parent n).

End AAEP_EPG.

(** ** [class AAEP_PhysDomain] (aaep.py) *)
Module AAEP_PhysDomain.

Definition _get_apic_classes : list string := ["infraRsDomP"].

Definition _get_parent_class : pyclass := cls_AAEP.

Definition get_parent (self : ref) : M pyarg :=
  n ← read self; mret (_parent n).

End AAEP_PhysDomain.

(** ** [class AAEP] (aaep.py) *)
Module AAEP.

Definition _get_apic_classes : list string := ["infraAttEntityP"].

(** [cls._get_apic_classes()[0]] *)
Definition apic_class : string := "infraAttEntityP".

Definition get_url (fmt : string) : string := "/api/mo/uni/infra." +:+ fmt.

Definition __init__ (self : ref) (nm : pyval) (parent : pyarg) : M unit :=
  update self (set_dn PyNone) ;;
  update self (set_lcOwn PyNone) ;;
  update self (set_childAction PyNone) ;;
  update self (set_descr PyNone) ;;
  update self (set_name nm) ;;
  BaseACIObject.__init__ self nm parent.

(** The call [AAEP(name, parent)]. *)
Definition new (nm : pyval) (parent : pyarg) : M ref :=
  self ← new_object cls_AAEP;
  __init__ self nm parent ;;
  mret self.

Definition _generate_attributes (self : node) : attributes :=
  let a0 : attributes := ∅ in
  let a1 := if py_truthy (name self) then <["name" := name self]> a0 else a0 in
  let a2 := if py_truthy (descr self)
            then <["descr" := descr self]> a1 else a1 in
  let a3 := if py_truthy (dn self) then <["dn" := dn self]> a2 else a2 in
  let a4 := if py_truthy (lcOwn self)
            then <["lcOwn" := lcOwn self]> a3 else a3 in
  if py_truthy (childAction self)
  then <["childAction" := childAction self]> a4 else a4.

Definition query_url : string :=
  "/api/mo/uni.json?query-target=subtree&target-subtree-class="
  +:+ apic_class.

(** [session.get(query_url).json()]; a [None] session has no [get]. *)
Definition query (session : option Session) : M body :=
  match session with
  | Some s => lift (session_get s query_url)
  | None => raise (AttributeError "'NoneType' object has no attribute 'get'")
  end.

(** [object_data[apic_class]['attributes']] *)
Definition attribute_data (object_data : record) : M attributes :=
  mo ← item object_data apic_class;
  item mo "attributes".

(** [object_data[apic_class]['attributes'][k]] *)
Definition attribute (object_data : record) (k : string) : M pyval :=
  a ← attribute_data object_data;
  item a k.

(** The body of the [for] loop of [get]. *)
Definition get_step (parent : pyarg) (object_data : record) : M ref :=
  nm ← attribute object_data "name";
  obj ← new (PyStr (py_str nm)) parent;
  a ← attribute_data object_data;
  BaseACIObject._populate_from_attributes obj a ;;
  v ← attribute object_data "dn";
  update obj (set_dn v) ;;
  v ← attribute object_data "lcOwn";
  update obj (set_lcOwn v) ;;
  v ← attribute object_data "childAction";
  update obj (set_childAction v) ;;
  mret obj.

Fixpoint get_loop (parent : pyarg) (data : list record) (resp : list ref)
  : M (list ref) :=
  match data with
  | [] => mret resp
  | object_data :: rest =>
      obj ← get_step parent object_data;
      get_loop parent rest (resp ++ [obj])
  end.

Definition get (session : option Session) (parent : pyarg) : M (list ref) :=
  ret ← query session;
  data ← item ret "imdata";
  get_loop parent data [].

(** The body of the [for] loop of [get_by_name], up to the comparison. *)
Definition get_by_name_step (object_data : record) : M (string * ref) :=
  nm ← attribute object_data "name";
  obj ← new (PyStr (py_str nm)) (AVal PyNone);
  a ← attribute_data object_data;
  BaseACIObject._populate_from_attributes obj a ;;
  v ← attribute object_data "dn";
  update obj (set_dn v) ;;
  v ← attribute object_data "lcOwn";
  update obj (set_lcOwn v) ;;
  v ← attribute object_data "childAction";
  update obj (set_childAction v) ;;
  v ← attribute object_data "descr";
  update obj (set_descr v) ;;
  mret (py_str nm, obj).

Fixpoint get_by_name_loop (aaep_name : pyval) (data : list record)
  : M pyarg :=
  match data with
  | [] => mret (AVal PyNone)
  | object_data :: rest =>
      '(nm, obj) ← get_by_name_step object_data;
      if py_str_eq nm aaep_name then mret (AObj obj)
      else get_by_name_loop aaep_name rest
  end.

Definition get_by_name (session : option Session) (aaep_name : pyval)
  : M pyarg :=
  ret ← query session;
  data ← item ret "imdata";
  get_by_name_loop aaep_name data.

(** [get_parent] *)
Definition get_parent (self : ref) : M pyarg :=
  n ← read self; mret (_parent n).

(** [get_epg_attachments_from_apic]: the body is [pass]. *)
Definition get_epg_attachments_from_apic (self : ref)
           (session : option Session) : M pyval :=
  mret PyNone.

End AAEP.

(** ** [class LogicalModel] (logicalmodel.py) *)

(** A class-method call issued by [populate_children]: [c.get(session,
    parent)] or [c.get_deep(session, parent=parent)]. *)
Inductive call : Type :=
| CallGet (c : pyclass) (session : option Session) (parent : pyarg)
| CallGetDeep (c : pyclass) (session : option Session) (parent : pyarg).

Module LogicalModel.

Definition _get_parent_class : pyclass := cls_Fabric.

Definition _get_children_classes : list pyclass :=
  [cls_Tenant; cls_PhysDomain; cls_AAEP].

Definition _get_apic_classes : list string := [].

(** [_get_name_from_dn] and [_get_parent_dn] both answer [None]. *)
Definition _get_name_from_dn (dn_ : pyval) : pyval := PyNone.

Definition _get_parent_dn (dn_ : pyval) : pyval := PyNone.

(** The [session] argument is [None] or a [Session], so the [assert] of
    the source holds by typing. *)
Definition __init__ (self : ref) (session : option Session)
           (parent : pyarg) : M unit :=
  BaseACIObject.__init__ self (PyStr "") parent ;;
  update self (set_session session) ;;
  update self (set_dn (PyStr "logical")).

(** The call [LogicalModel(session, parent)]. *)
Definition new (session : option Session) (parent : pyarg) : M ref :=
  self ← new_object cls_LogicalModel;
  __init__ self session parent ;;
  mret self.

(** [LogicalModel.get(session, parent)] *)
Definition get (session : option Session) (parent : pyarg)
  : M (list ref) :=
  logical_model ← new session parent;
  mret [logical_model].

Section populate.

(** The class methods that live outside aaep.py and logicalmodel.py:
    [Tenant.get], [PhysDomain.get] (acitoolkit.py) and every [get_deep]
    (acibaseobject.py).  They act on the heap; their return values are
    discarded by [populate_children]. *)
Variable external : call -> M unit.

Definition dispatch (c : call) : M unit :=
  match c with
  | CallGet cls_AAEP session parent => AAEP.get session parent ;; mret tt
  | _ => external c
  end.

(** The [for] loop over the child classes; the calls issued are logged
    in order next to the heap. *)
Fixpoint populate_loop (self : ref) (deep : bool)
         (classes : list pyclass) (h : heap)
  : result unit * heap * list call :=
  match classes with
  | [] => (Ok tt, h, [])
  | child_class :: rest =>
      match read self h with
      | (Raise e, h1) => (Raise e, h1, [])
      | (Ok n, h1) =>
          let c := if deep
                   then CallGetDeep child_class (_session n) (AObj self)
                   else CallGet child_class (_session n) (AObj self) in
          match dispatch c h1 with
          | (Raise e, h2) => (Raise e, h2, [c])
          | (Ok _, h2) =>
              let '(r, h3, t) := populate_loop self deep rest h2 in
              (r, h3, c :: t)
          end
      end
  end.

Definition populate_children (self : ref) (deep include_concrete : bool)
           (h : heap) : result (list ref) * heap * list call :=
  match populate_loop self deep _get_children_classes h with
  | (Raise e, h', t) => (Raise e, h', t)
  | (Ok _, h', t) =>
      match read self h' with
      | (Ok n, h'') => (Ok (_children n), h'', t)
      | (Raise e, h'') => (Raise e, h'', t)
      end
  end.

End populate.

End LogicalModel.

(** * Vocabulary of the statements, and the data of the examples *)

(** What [_generate_attributes] keeps of a field: the value when it is
    truthy, nothing otherwise. *)
Definition emitted (v : pyval) : option pyval :=
  if py_truthy v then Some v else None.

(** What a field holds after a round trip through the codec. *)
Definition restored (v : pyval) : pyval :=
  if py_truthy v then v else PyNone.


(** The attachment built by [AAEP_EPG(None, None, '')]. *)
Definition attachment_with_empty_encap : node :=
  set_encap (PyStr "") (set_name (PyStr "asdf") (blank cls_AAEP_EPG)).

(** An attachment as the controller describes it. *)
Definition attachment_vlan_123 : node :=
  set_encap (PyStr "vlan-123")
    (set_tDn (PyStr "uni/tn-t1/ap-a1/epg-e1")
       (set_lcOwn (PyStr "local")
          (set_dn (PyStr "uni/infra/attentp-a/gen-default/rsfuncToEpg")
             (set_name (PyStr "asdf") (blank cls_AAEP_EPG))))).

(** The fields each class declares for the codec, with their keys. *)
Definition AAEP_fields (n : node) : list (string * pyval) :=
  [("name", name n); ("descr", descr n); ("dn", dn n); ("lcOwn", lcOwn n);
   ("childAction", childAction n)].

Definition AAEP_EPG_fields (n : node) : list (string * pyval) :=
  [("dn", dn n); ("lcOwn", lcOwn n); ("childAction", childAction n);
   ("tDn", tDn n); ("encap", encap n)].

(** Linking a child under its parent: the effect of the base constructor on
    the parent. *)
Definition add_child (child : ref) (n : node) : node :=
  set_children (_children n ++ [child]) n.

Definition attach (parent : pyarg) (child : ref) (h : heap) : heap :=
  match parent with
  | AObj p => alter (add_child child) p h
  | AVal _ => h
  end.

(** A parent argument the base constructor accepts: [None] or an instance
    that is in the heap. *)
Definition parent_ok (h : heap) (parent : pyarg) : Prop :=
  match parent with
  | AVal v => v = PyNone
  | AObj p => (p < List.length h)%nat
  end.

(** The instance [AAEP(name, parent)] right after construction. *)
Definition AAEP_built (nm : pyval) (parent : pyarg) : node :=
  mkNode cls_AAEP nm PyNone PyNone PyNone PyNone PyNone PyNone
         (AVal PyNone) parent [] None.

(** The instance [LogicalModel(session, parent)] right after construction. *)
Definition LogicalModel_built (session : option Session) (parent : pyarg)
  : node :=
  mkNode cls_LogicalModel (PyStr "") PyNone (PyStr "logical") PyNone PyNone
         PyNone PyNone (AVal PyNone) parent [] session.

(** [a] is an instance of class [c] in heap [h]. *)
Definition is_instance (h : heap) (a : pyarg) (c : pyclass) : Prop :=
  exists r n, a = AObj r /\ h !! r = Some n /\ n_class n = c.

(** Every reference in the argument is live. *)
Definition live (h : heap) (a : pyarg) : Prop :=
  match a with
  | AVal _ => True
  | AObj r => (r < List.length h)%nat
  end.

(** The argument conforms to an optional parameter of class [c]. *)
Definition conforms (h : heap) (a : pyarg) (c : pyclass) : Prop :=
  a = AVal PyNone \/ is_instance h a c.

(** [epg.dn] as the heap has it when the constructor runs. *)
Definition dn_of (h : heap) (epg : pyarg) : pyval :=
  match epg with
  | AObj e => default PyNone (dn <$> h !! e)
  | AVal _ => PyNone
  end.

(** The instance [AAEP_EPG(parent, epg, encap)] right after construction. *)
Definition AAEP_EPG_built (h : heap) (parent epg : pyarg) (encap : pyval)
  : node :=
  mkNode cls_AAEP_EPG (PyStr "asdf") PyNone PyNone PyNone PyNone
         (dn_of h epg) encap epg parent [] None.

(** An encapsulation the constructor lets through: falsy, or valid. *)
Definition encap_ok (encap : pyval) : Prop :=
  py_truthy encap = false \/ is_valid_encap encap = true.

(** A heap with one AAEP and one EPG, as a caller would have built them. *)
Definition lab_epg : node :=
  set_dn (PyStr "uni/tn-t1/ap-a1/epg-e1")
         (set_name (PyStr "e1") (blank cls_EPG)).

Definition lab_heap : heap :=
  [AAEP_built (PyStr "aaep1") (AVal PyNone); lab_epg].

(** The attribute mapping of a record of class [infraAttEntityP]. *)
Definition record_attributes (r : record) : option attributes :=
  mo ← r !! AAEP.apic_class; mo !! "attributes".

(** The record [r] carries the attribute mapping [a], which has every key of
    [keys]. *)
Definition complete (keys : list string) (r : record) (a : attributes)
  : Prop :=
  record_attributes r = Some a /\ Forall (fun k => is_Some (a !! k)) keys.

(** The keys [AAEP.get] subscripts, and those [AAEP.get_by_name] does. *)
Definition get_keys : list string := ["name"; "dn"; "lcOwn"; "childAction"].
Definition get_by_name_keys : list string :=
  ["name"; "dn"; "lcOwn"; "childAction"; "descr"].

(** [str(attributes['name'])] *)
Definition decoded_name (a : attributes) : string :=
  py_str (dict_get a "name").

(** The instance [AAEP.get] builds from an attribute mapping. *)
Definition AAEP_decoded (a : attributes) (parent : pyarg) : node :=
  mkNode cls_AAEP (PyStr (decoded_name a)) PyNone (dict_get a "dn")
         (dict_get a "lcOwn") (dict_get a "childAction") PyNone PyNone
         (AVal PyNone) parent [] None.

(** The instance [AAEP.get_by_name] builds from an attribute mapping. *)
Definition AAEP_fetched (a : attributes) : node :=
  set_descr (dict_get a "descr") (AAEP_decoded a (AVal PyNone)).

(** The heap after [AAEP.get] has decoded the attribute mappings [attrs], in
    order, under [parent]. *)
Fixpoint decode_all (parent : pyarg) (attrs : list attributes) (h : heap)
  : heap :=
  match attrs with
  | [] => h
  | a :: rest =>
      decode_all parent rest
        (attach parent (List.length h) (h ++ [AAEP_decoded a parent]))
  end.

(** A simulated controller with three access entity profiles. *)
Definition profile (nm dn_ lc ca de : string) : record :=
  {[ "infraAttEntityP" :=
       {[ "attributes" :=
            <["name" := PyStr nm]>
              (<["dn" := PyStr dn_]>
                 (<["lcOwn" := PyStr lc]>
                    (<["childAction" := PyStr ca]>
                       {[ "descr" := PyStr de ]}))) ]} ]}.

Definition profile_attributes (nm dn_ lc ca de : string) : attributes :=
  <["name" := PyStr nm]>
    (<["dn" := PyStr dn_]>
       (<["lcOwn" := PyStr lc]>
          (<["childAction" := PyStr ca]> {[ "descr" := PyStr de ]}))).

Definition lab_records : list record :=
  [profile "default" "uni/infra/attentp-default" "local" "" "";
   profile "x" "uni/infra/attentp-x" "local" "" "lab";
   profile "prod" "uni/infra/attentp-prod" "policy" "" ""].

Definition lab_attributes : list attributes :=
  [profile_attributes "default" "uni/infra/attentp-default" "local" "" "";
   profile_attributes "x" "uni/infra/attentp-x" "local" "" "lab";
   profile_attributes "prod" "uni/infra/attentp-prod" "policy" "" ""].

Definition lab_body : body := {[ "imdata" := lab_records ]}.

Definition lab_session : Session :=
  {| session_get := fun url =>
       if String.eqb url AAEP.query_url then Ok lab_body
       else Raise (TransportError "404") |}.

(** The heap of a caller holding one [LogicalModel(lab_session)]. *)
Definition lab_model_heap : heap :=
  [LogicalModel_built (Some lab_session) (AVal PyNone)].

(** A record whose decoded name equals the requested one. *)
Definition matches (aaep_name : pyval) (r : record) : Prop :=
  exists a v,
    record_attributes r = Some a /\ a !! "name" = Some v /\
    py_str_eq (py_str v) aaep_name = true.

(** A controller answer whose second record has no lcOwn attribute. *)
Definition partial_record : record :=
  {[ "infraAttEntityP" :=
       {[ "attributes" :=
            <["name" := PyStr "x"]>
              (<["dn" := PyStr "uni/infra/attentp-x"]>
                 {[ "childAction" := PyStr "" ]}) ]} ]}.

Definition partial_attributes : attributes :=
  <["name" := PyStr "x"]>
    (<["dn" := PyStr "uni/infra/attentp-x"]> {[ "childAction" := PyStr "" ]}).

Definition partial_records : list record :=
  [profile "default" "uni/infra/attentp-default" "local" "" "";
   partial_record].

Definition partial_session : Session :=
  {| session_get := fun _ => Ok {[ "imdata" := partial_records ]} |}.

(** The session answers the AAEP query with the records [records], each a
    complete record of class infraAttEntityP. *)
Definition answers (s : Session) (records : list record) : Prop :=
  exists b attrs,
    session_get s AAEP.query_url = Ok b /\
    b !! "imdata" = Some records /\
    Forall2 (complete get_keys) records attrs.

(** The call [populate_children] issues for one child class. *)
Definition call_for (deep : bool) (session : option Session) (self : ref)
           (child_class : pyclass) : call :=
  if deep then CallGetDeep child_class session (AObj self)
  else CallGet child_class session (AObj self).

(** A stand-in for the class methods defined outside aaep.py and
    logicalmodel.py: each call attaches one instance of its class under the
    parent. *)
Definition lab_external (c : call) : M unit :=
  match c with
  | CallGet cls _ parent | CallGetDeep cls _ parent =>
      obj ← new_object cls;
      BaseACIObject.__init__ obj (PyStr "t1") parent
  end.

(** The form the documentation describes, read literally: ['vlan-'] followed
    by one or more decimal digits (leading zeros allowed) whose value lies
    between 1 and 4094. *)
Fixpoint decimal_digits (acc : Z) (s : string) : option Z :=
  match s with
  | EmptyString => Some acc
  | String c s' =>
      match PyInt.digit c with
      | Some d => decimal_digits (10 * acc + d) s'
      | None => None
      end
  end.

Definition decimal (s : string) : option Z :=
  match s with
  | EmptyString => None
  | _ => decimal_digits 0 s
  end.

Definition vlan_form (s : string) : bool :=
  String.eqb (str_take 5 s) "vlan-" &&
  match decimal (str_drop 5 s) with
  | Some n => Z.leb 1 n && Z.leb n 4094
  | None => false
  end.

(** The class a call is addressed to. *)
Definition call_class (c : call) : pyclass :=
  match c with
  | CallGet cls _ _ | CallGetDeep cls _ _ => cls
  end.


(** The keys [AAEP_EPG._generate_attributes] and
    [AAEP_EPG._populate_from_attributes] know. *)
Definition AAEP_EPG_keys : list string :=
  ["dn"; "lcOwn"; "childAction"; "tDn"; "encap"].

(** An entry of an attribute mapping that survives the codec of AAEP_EPG:
    its key is one of the five and its value is truthy. *)
Definition kept (kv : string * pyval) : Prop :=
  kv.1 ∈ AAEP_EPG_keys /\ py_truthy kv.2 = true.

#[global] Instance kept_dec (kv : string * pyval) : Decision (kept kv).
Proof. unfold kept. apply _. Defined.

(** A variant of the stand-in in which the getters of [PhysDomain] fail. *)
Definition lab_external_failing (c : call) : M unit :=
  match call_class c with
  | cls_PhysDomain => raise (TransportError "503")
  | _ => lab_external c
  end.

(** * Properties *)

(** ** Running the heap monad *)

Lemma bind_run {A B : Type} (m : M A) (k : A -> M B) (h : heap) :
  (m ≫= k) h = match m h with
               | (Ok a, h') => k a h'
               | (Raise e, h') => (Raise e, h')
               end.
Proof. reflexivity. Qed.

Lemma lookup_insert_same (h : heap) (r : ref) (n x : node) :
  h !! r = Some n -> <[r := x]> h !! r = Some x.
Proof.
  intros Hr. apply list_lookup_insert_eq. eapply lookup_lt_Some, Hr.
Qed.

Lemma update_run (h : heap) (r : ref) (n : node) (f : node -> node) :
  h !! r = Some n -> update r f h = (Ok tt, <[r := f n]> h).
Proof. intros Hr. unfold update. rewrite Hr. reflexivity. Qed.

Lemma bind_update {B : Type} (h : heap) (r : ref) (n : node)
      (f : node -> node) (k : unit -> M B) :
  h !! r = Some n -> (update r f ≫= k) h = k tt (<[r := f n]> h).
Proof. intros Hr. rewrite bind_run, (update_run _ _ _ _ Hr). reflexivity. Qed.

Lemma update_twice (h : heap) (r : ref) (x y : node) :
  <[r := y]> (<[r := x]> h) = <[r := y]> h.
Proof. apply list_insert_insert_eq. Qed.

(** Run a chain of assignments on an instance that is in the heap. *)
Ltac run_updates H :=
  repeat (first
    [ erewrite bind_update by (first [ exact H | eapply lookup_insert_same, H ])
    | erewrite update_run by (first [ exact H | eapply lookup_insert_same, H ]) ];
    rewrite ?update_twice).

Lemma AAEP_EPG_populate_run (h : heap) (r : ref) (n : node) (a : attributes) :
  h !! r = Some n ->
  AAEP_EPG._populate_from_attributes r a h =
  (Ok tt,
   <[r := set_encap (dict_get a "encap")
            (set_tDn (dict_get a "tDn")
               (set_childAction (dict_get a "childAction")
                  (set_lcOwn (dict_get a "lcOwn")
                     (set_dn (BaseACIObject.get_dn_from_attributes a) n))))]> h).
Proof.
  intros Hr. unfold AAEP_EPG._populate_from_attributes.
  run_updates Hr. reflexivity.
Qed.

(** ** The attribute codec *)

Lemma dict_get_emitted (a : attributes) (k : string) (v : pyval) :
  a !! k = emitted v -> dict_get a k = restored v.
Proof.
  unfold dict_get, emitted, restored. intros ->.
  destruct (py_truthy v); reflexivity.
Qed.


Lemma AAEP_EPG_generate_lookup (n : node) :
  let a := AAEP_EPG._generate_attributes n in
  a !! "dn" = emitted (dn n) /\
  a !! "lcOwn" = emitted (lcOwn n) /\
  a !! "childAction" = emitted (childAction n) /\
  a !! "tDn" = emitted (tDn n) /\
  a !! "encap" = emitted (encap n) /\
  (forall k, k <> "dn" -> k <> "lcOwn" -> k <> "childAction" ->
             k <> "tDn" -> k <> "encap" -> a !! k = None).
Proof.
  unfold AAEP_EPG._generate_attributes, emitted. cbv zeta.
  destruct (py_truthy (dn n)), (py_truthy (lcOwn n)),
    (py_truthy (childAction n)), (py_truthy (tDn n)), (py_truthy (encap n));
    repeat split; intros; simplify_map_eq; reflexivity.
Qed.

Lemma AAEP_generate_lookup (n : node) :
  let a := AAEP._generate_attributes n in
  a !! "name" = emitted (name n) /\
  a !! "descr" = emitted (descr n) /\
  a !! "dn" = emitted (dn n) /\
  a !! "lcOwn" = emitted (lcOwn n) /\
  a !! "childAction" = emitted (childAction n) /\
  (forall k, k <> "name" -> k <> "descr" -> k <> "dn" -> k <> "lcOwn" ->
             k <> "childAction" -> a !! k = None).
Proof.
  unfold AAEP._generate_attributes, emitted. cbv zeta.
  destruct (py_truthy (name n)), (py_truthy (descr n)), (py_truthy (dn n)),
    (py_truthy (lcOwn n)), (py_truthy (childAction n));
    repeat split; intros; simplify_map_eq; reflexivity.
Qed.

Lemma AAEP_EPG_roundtrip_fields (h : heap) (r : ref) (n : node) :
  h !! r = Some n ->
  exists n',
    AAEP_EPG._populate_from_attributes r (AAEP_EPG._generate_attributes n) h
    = (Ok tt, <[r := n']> h) /\
    dn n' = restored (dn n) /\
    lcOwn n' = restored (lcOwn n) /\
    childAction n' = restored (childAction n) /\
    tDn n' = restored (tDn n) /\
    encap n' = restored (encap n).
Proof.
  intros Hr.
  destruct (AAEP_EPG_generate_lookup n) as (Hdn & Hlc & Hca & Htd & Hen & _).
  eexists. split; [apply AAEP_EPG_populate_run, Hr|]. cbn.
  unfold BaseACIObject.get_dn_from_attributes.
  rewrite (dict_get_emitted _ _ _ Hdn), (dict_get_emitted _ _ _ Hlc),
    (dict_get_emitted _ _ _ Hca), (dict_get_emitted _ _ _ Htd),
    (dict_get_emitted _ _ _ Hen).
  repeat split.
Qed.




Lemma emitted_truthy (v w : pyval) :
  emitted v = Some w -> w <> PyNone /\ w <> PyStr "".
Proof.
  unfold emitted. destruct (py_truthy v) eqn:E; [|discriminate].
  intros [= <-]. split; intros ->; discriminate.
Qed.

Lemma emitted_unset (v : pyval) : py_truthy v = false -> emitted v = None.
Proof. unfold emitted. intros ->. reflexivity. Qed.

(** C7: [_generate_attributes] of AAEP and of AAEP_EPG emits no key for a
    declared field whose value is unset (falsy: [None] or empty), and no
    value of the emitted mapping is [None] or the empty string. *)
Theorem generate_attributes_only_set (n : node) :
  (forall k v, (k, v) ∈ AAEP_fields n -> py_truthy v = false ->
               AAEP._generate_attributes n !! k = None) /\
  (forall k v, (k, v) ∈ AAEP_EPG_fields n -> py_truthy v = false ->
               AAEP_EPG._generate_attributes n !! k = None) /\
  (forall k v, AAEP._generate_attributes n !! k = Some v ->
               v <> PyNone /\ v <> PyStr "") /\
  (forall k v, AAEP_EPG._generate_attributes n !! k = Some v ->
               v <> PyNone /\ v <> PyStr "").
Proof.
  destruct (AAEP_generate_lookup n) as (A1 & A2 & A3 & A4 & A5 & A6).
  destruct (AAEP_EPG_generate_lookup n) as (B1 & B2 & B3 & B4 & B5 & B6).
  cbv zeta in *.
  split; [|split; [|split]].
  - intros k v Hin Hv. unfold AAEP_fields in Hin.
    repeat (apply elem_of_cons in Hin as [[= -> ->] | Hin];
            [rewrite ?A1, ?A2, ?A3, ?A4, ?A5; apply emitted_unset, Hv|]).
    inversion Hin.
  - intros k v Hin Hv. unfold AAEP_EPG_fields in Hin.
    repeat (apply elem_of_cons in Hin as [[= -> ->] | Hin];
            [rewrite ?B1, ?B2, ?B3, ?B4, ?B5; apply emitted_unset, Hv|]).
    inversion Hin.
  - intros k v Hk.
    destruct (decide (k = "name")) as [-> | ?];
      [rewrite A1 in Hk; eapply emitted_truthy, Hk|].
    destruct (decide (k = "descr")) as [-> | ?];
      [rewrite A2 in Hk; eapply emitted_truthy, Hk|].
    destruct (decide (k = "dn")) as [-> | ?];
      [rewrite A3 in Hk; eapply emitted_truthy, Hk|].
    destruct (decide (k = "lcOwn")) as [-> | ?];
      [rewrite A4 in Hk; eapply emitted_truthy, Hk|].
    destruct (decide (k = "childAction")) as [-> | ?];
      [rewrite A5 in Hk; eapply emitted_truthy, Hk|].
    rewrite A6 in Hk by assumption. discriminate.
  - intros k v Hk.
    destruct (decide (k = "dn")) as [-> | ?];
      [rewrite B1 in Hk; eapply emitted_truthy, Hk|].
    destruct (decide (k = "lcOwn")) as [-> | ?];
      [rewrite B2 in Hk; eapply emitted_truthy, Hk|].
    destruct (decide (k = "childAction")) as [-> | ?];
      [rewrite B3 in Hk; eapply emitted_truthy, Hk|].
    destruct (decide (k = "tDn")) as [-> | ?];
      [rewrite B4 in Hk; eapply emitted_truthy, Hk|].
    destruct (decide (k = "encap")) as [-> | ?];
      [rewrite B5 in Hk; eapply emitted_truthy, Hk|].
    rewrite B6 in Hk by assumption. discriminate.
Qed.

Lemma generate_attributes_only_set_witness :
  AAEP._generate_attributes (AAEP_built (PyStr "aaep1") (AVal PyNone))
    !! "descr" = None /\
  AAEP_EPG._generate_attributes attachment_with_empty_encap !! "encap" = None /\
  (PyStr "aaep1" <> PyNone /\ PyStr "aaep1" <> PyStr "") /\
  (PyStr "vlan-123" <> PyNone /\ PyStr "vlan-123" <> PyStr "").
Proof.
  split; [|split; [|split]].
  - apply (proj1 (generate_attributes_only_set
                    (AAEP_built (PyStr "aaep1") (AVal PyNone)))
             "descr" PyNone); [|reflexivity].
    apply list_elem_of_further, list_elem_of_here.
  - apply (proj1 (proj2 (generate_attributes_only_set
                           attachment_with_empty_encap))
             "encap" (PyStr "")); [|reflexivity].
    do 4 apply list_elem_of_further. apply list_elem_of_here.
  - apply (proj1 (proj2 (proj2 (generate_attributes_only_set
                    (AAEP_built (PyStr "aaep1") (AVal PyNone)))))
             "name" (PyStr "aaep1")).
    vm_compute. reflexivity.
  - apply (proj2 (proj2 (proj2 (generate_attributes_only_set
                                  attachment_vlan_123)))
             "encap" (PyStr "vlan-123")).
    vm_compute. reflexivity.
Defined.

(** ** Construction *)

Lemma insert_alter (h : heap) (r : ref) (n : node) (f : node -> node) :
  h !! r = Some n -> <[r := f n]> h = alter f r h.
Proof.
  intros Hr. apply list_eq. intros i.
  destruct (decide (r = i)) as [Heq | Hne].
  - subst i. rewrite list_lookup_alter_eq, Hr.
    apply list_lookup_insert_eq. eapply lookup_lt_Some, Hr.
  - rewrite list_lookup_alter_ne, list_lookup_insert_ne by assumption.
    reflexivity.
Qed.

Lemma update_alter (h : heap) (r : ref) (f : node -> node) :
  (r < List.length h)%nat -> update r f h = (Ok tt, alter f r h).
Proof.
  intros Hlt. destruct (lookup_lt_is_Some_2 h r Hlt) as [n Hn].
  rewrite (update_run _ _ _ _ Hn), (insert_alter _ _ _ _ Hn). reflexivity.
Qed.

Lemma bind_update_alter {B : Type} (h : heap) (r : ref) (f : node -> node)
      (k : unit -> M B) :
  (r < List.length h)%nat -> (update r f ≫= k) h = k tt (alter f r h).
Proof. intros Hlt. rewrite bind_run, update_alter by assumption. reflexivity. Qed.

Lemma new_object_run {B : Type} (c : pyclass) (k : ref -> M B) (h : heap) :
  (new_object c ≫= k) h = k (List.length h) (h ++ [blank c]).
Proof. reflexivity. Qed.

Lemma ret_run {A B : Type} (a : A) (k : A -> M B) (h : heap) :
  (mret a ≫= k) h = k a h.
Proof. reflexivity. Qed.

Lemma alter_fresh (h : heap) (x : node) (f : node -> node) :
  alter f (List.length h) (h ++ [x]) = h ++ [f x].
Proof.
  rewrite alter_app_r_alt by lia. rewrite Nat.sub_diag. reflexivity.
Qed.

Lemma length_attach (parent : pyarg) (child : ref) (h : heap) :
  List.length (attach parent child h) = List.length h.
Proof. destruct parent; cbn; [reflexivity | apply length_alter]. Qed.

(** Side conditions of the run lemmas: a reference is within the heap. *)
Ltac in_heap :=
  rewrite ?length_alter, ?length_attach, ?length_app; cbn [List.length]; lia.

Ltac run_alters :=
  repeat (first [ rewrite bind_update_alter by in_heap
                | rewrite update_alter by in_heap ]).

Lemma base_init_run (h : heap) (x : node) (nm : pyval) (parent : pyarg) :
  parent_ok h parent ->
  BaseACIObject.__init__ (List.length h) nm parent (h ++ [x]) =
  (Ok tt,
   attach parent (List.length h)
          (h ++ [set_children [] (set_parent parent (set_name nm x))])).
Proof.
  intros Hp. unfold BaseACIObject.__init__.
  rewrite bind_update_alter by in_heap. rewrite alter_fresh.
  destruct parent as [v | p]; cbn in Hp.
  - subst v. reflexivity.
  - cbn [attach]. rewrite update_alter by in_heap. reflexivity.
Qed.

Lemma AAEP_new_run (h : heap) (nm : pyval) (parent : pyarg) :
  parent_ok h parent ->
  AAEP.new nm parent h =
  (Ok (List.length h),
   attach parent (List.length h) (h ++ [AAEP_built nm parent])).
Proof.
  intros Hp. unfold AAEP.new, AAEP.__init__.
  rewrite new_object_run.
  rewrite !bind_run.
  run_alters. rewrite !alter_fresh.
  rewrite (base_init_run h _ nm parent Hp). reflexivity.
Qed.

Lemma LogicalModel_new_run (h : heap) (session : option Session)
      (parent : pyarg) :
  parent_ok h parent ->
  LogicalModel.new session parent h =
  (Ok (List.length h),
   attach parent (List.length h) (h ++ [LogicalModel_built session parent])).
Proof.
  intros Hp. unfold LogicalModel.new, LogicalModel.__init__.
  rewrite new_object_run, !bind_run.
  rewrite (base_init_run h _ _ parent Hp).
  destruct parent as [v | p]; cbn in Hp; cbn [attach].
  - run_alters. rewrite !alter_fresh. reflexivity.
  - run_alters.
    rewrite !(list_alter_alter_ne _ (add_child _)) by lia.
    rewrite !alter_fresh. reflexivity.
Qed.

Lemma is_instance_live (h : heap) (a : pyarg) (c : pyclass) :
  is_instance h a c -> live h a.
Proof.
  intros (r & n & -> & Hr & _). cbn. eapply lookup_lt_Some, Hr.
Qed.

Lemma conforms_parent_ok (h : heap) (a : pyarg) (c : pyclass) :
  conforms h a c -> parent_ok h a.
Proof.
  intros [-> | Hi]; [reflexivity|].
  pose proof (is_instance_live _ _ _ Hi) as Hl.
  destruct Hi as (r & n & -> & _). exact Hl.
Qed.

Section type_check.

Variables (a : pyarg) (c : pyclass) (msg : string).

(** The guarded [isinstance] test at the head of [AAEP_EPG.__init__]. *)
Local Abbreviation check :=
  (if arg_truthy a then
     ok ← isinstance a c;
     if negb ok then raise (TypeError msg) else mret tt
   else mret tt).

Lemma check_pass (h : heap) (x : node) :
  conforms h a c -> check (h ++ [x]) = (Ok tt, h ++ [x]).
Proof.
  intros [-> | (r & n & -> & Hr & Hc)]; [reflexivity|].
  cbn [arg_truthy]. rewrite bind_run. unfold isinstance.
  rewrite (lookup_app_l_Some _ _ _ _ Hr).
  rewrite bool_decide_eq_true_2 by exact Hc. reflexivity.
Qed.

Lemma check_fail (h : heap) (x : node) :
  live h a -> arg_truthy a = true -> ~ is_instance h a c ->
  check (h ++ [x]) = (Raise (TypeError msg), h ++ [x]).
Proof.
  intros Hl Ht Hn. rewrite Ht, bind_run.
  destruct a as [v | r]; [reflexivity|]. cbn in Hl. unfold isinstance.
  destruct (lookup_lt_is_Some_2 h r Hl) as [n Hr].
  rewrite (lookup_app_l_Some _ _ _ _ Hr).
  rewrite bool_decide_eq_false_2; [reflexivity|].
  intros Hc. apply Hn. exists r, n. auto.
Qed.

Lemma check_falsy (h : heap) : arg_truthy a = false -> check h = (Ok tt, h).
Proof. intros ->. reflexivity. Qed.

End type_check.

Lemma check_total (a : pyarg) (c : pyclass) (msg : string) (h : heap)
      (x : node) :
  live h a ->
  let check := if arg_truthy a then
                 ok ← isinstance a c;
                 if negb ok then raise (TypeError msg) else mret tt
               else mret tt in
  check (h ++ [x]) = (Ok tt, h ++ [x]) \/
  check (h ++ [x]) = (Raise (TypeError msg), h ++ [x]).
Proof.
  intros Hl. cbv zeta. destruct a as [v | r].
  - destruct (py_truthy v) eqn:Ht.
    + right. apply (check_fail (AVal v)); [exact Hl | exact Ht |].
      intros (r & n & [=] & _).
    + left. apply (check_falsy (AVal v)), Ht.
  - cbn in Hl. destruct (lookup_lt_is_Some_2 h r Hl) as [n Hr].
    destruct (decide (n_class n = c)) as [Hc | Hc].
    + left. apply (check_pass (AObj r)). right. exists r, n. auto.
    + right. apply (check_fail (AObj r)); [exact Hl | reflexivity |].
      intros (r' & n' & [= <-] & Hr' & Hc'). congruence.
Qed.

Lemma alter_attach_fresh (h : heap) (parent : pyarg) (x : node)
      (f : node -> node) :
  parent_ok h parent ->
  alter f (List.length h) (attach parent (List.length h) (h ++ [x]))
  = attach parent (List.length h) (h ++ [f x]).
Proof.
  intros Hp. destruct parent as [v | p]; cbn in Hp; cbn [attach].
  - apply alter_fresh.
  - rewrite list_alter_alter_ne by lia. rewrite alter_fresh. reflexivity.
Qed.

(** Attaching a child leaves every other field of an older instance as it
    was. *)
Lemma attach_lookup_old (h : heap) (parent : pyarg) (x : node) (e : ref)
      (ne : node) :
  h !! e = Some ne ->
  exists ne',
    attach parent (List.length h) (h ++ [x]) !! e = Some ne' /\
    dn ne' = dn ne /\ n_class ne' = n_class ne /\
    (parent <> AObj e -> ne' = ne).
Proof.
  intros He. pose proof (lookup_app_l_Some _ [x] _ _ He) as He'.
  destruct parent as [v | p]; cbn [attach].
  - exists ne. auto.
  - destruct (decide (p = e)) as [-> | Hne].
    + exists (add_child (List.length h) ne).
      rewrite list_lookup_alter_eq, He'. repeat split. congruence.
    + exists ne. rewrite list_lookup_alter_ne by assumption. auto.
Qed.

Lemma attach_lookup_fresh (h : heap) (parent : pyarg) (x : node) :
  parent_ok h parent ->
  attach parent (List.length h) (h ++ [x]) !! List.length h = Some x.
Proof.
  intros Hp. destruct parent as [v | p]; cbn in Hp; cbn [attach].
  - apply list_lookup_middle. reflexivity.
  - rewrite list_lookup_alter_ne by lia. apply list_lookup_middle. reflexivity.
Qed.

Lemma tDn_assignment_run (h : heap) (parent epg : pyarg) (x : node) :
  parent_ok h parent ->
  conforms h epg cls_EPG ->
  (if arg_truthy epg
   then AAEP_EPG.epg_dn epg ≫= λ d, update (List.length h) (set_tDn d)
   else update (List.length h) (set_tDn PyNone))
    (attach parent (List.length h) (h ++ [x]))
  = (Ok tt, attach parent (List.length h) (h ++ [set_tDn (dn_of h epg) x])).
Proof.
  intros Hpo [-> | (e & ne & -> & Hne & _)].
  - cbn [arg_truthy py_truthy]. run_alters.
    rewrite alter_attach_fresh by assumption. reflexivity.
  - cbn [arg_truthy dn_of]. rewrite Hne.
    cbn [fmap option_fmap option_map default].
    unfold AAEP_EPG.epg_dn. rewrite !bind_run. unfold read.
    destruct (attach_lookup_old h parent x e ne Hne) as (ne' & -> & Hdn & _).
    cbv beta iota delta [mret M_ret]. run_alters.
    rewrite alter_attach_fresh by assumption. rewrite Hdn. reflexivity.
Qed.

Lemma encap_check_pass (encap : pyval) :
  encap_ok encap ->
  (if py_truthy encap
   then if negb (is_valid_encap encap)
        then raise (ValueError ("Invalid encapsulation string: "
                                +:+ str_take 20 (py_str encap)))
        else mret tt
   else mret tt) = (mret tt : M unit).
Proof.
  intros [-> | ->]; [reflexivity|]. destruct (py_truthy encap); reflexivity.
Qed.

Lemma AAEP_EPG_new_run (h : heap) (parent epg : pyarg) (encap : pyval) :
  conforms h parent cls_AAEP ->
  conforms h epg cls_EPG ->
  encap_ok encap ->
  AAEP_EPG.new parent epg encap h =
  (Ok (List.length h),
   attach parent (List.length h)
          (h ++ [AAEP_EPG_built h parent epg encap])).
Proof.
  intros Hp He Hc. pose proof (conforms_parent_ok _ _ _ Hp) as Hpo.
  unfold AAEP_EPG.new, AAEP_EPG.__init__.
  rewrite new_object_run, bind_run.
  rewrite bind_run, (check_pass _ _ _ _ _ Hp).
  rewrite bind_run, (check_pass _ _ _ _ _ He).
  rewrite bind_run, (base_init_run h _ _ parent Hpo).
  run_alters. rewrite !alter_attach_fresh by assumption.
  rewrite bind_run, (tDn_assignment_run _ _ _ _ Hpo He).
  rewrite (encap_check_pass _ Hc), ret_run.
  run_alters. rewrite alter_attach_fresh by assumption. reflexivity.
Qed.

(** C3, counterexample: [AAEP_EPG(None, '', '')] is constructed without any
    error, although the epg argument is not [None] and is not an EPG, and
    [is_valid_encap('')] is false. *)
Lemma AAEP_EPG_init_accepts_falsy_arguments :
  AVal (PyStr "") <> AVal PyNone /\
  ~ is_instance [] (AVal (PyStr "")) cls_EPG /\
  is_valid_encap (PyStr "") = false /\
  AAEP_EPG.new (AVal PyNone) (AVal (PyStr "")) (PyStr "") []
  = (Ok 0%nat,
     [mkNode cls_AAEP_EPG (PyStr "asdf") PyNone PyNone PyNone PyNone PyNone
             (PyStr "") (AVal (PyStr "")) (AVal PyNone) [] None]).
Proof.
  split; [discriminate|].
  split; [intros (r & n & [=] & _)|].
  split; vm_compute; reflexivity.
Qed.

(** C3, amended: constructing an AAEP_EPG with a truthy parent that is not
    an AAEP instance, or with a truthy epg that is not an EPG instance,
    raises a TypeError; with a conforming parent and epg, a truthy encap for
    which [is_valid_encap] is false raises a ValueError; and a conforming
    parent and epg ([None] or an instance of the class) with an encap that is
    falsy or valid constructs the instance without an error. *)
Theorem AAEP_EPG_init_errors (h : heap) (parent epg : pyarg) (encap : pyval) :
  live h parent ->
  live h epg ->
  (arg_truthy parent = true -> ~ is_instance h parent cls_AAEP ->
   exists h',
     AAEP_EPG.new parent epg encap h
     = (Raise (TypeError "Parent must be instance of AccessEntityProfile"),
        h')) /\
  (arg_truthy epg = true -> ~ is_instance h epg cls_EPG ->
   exists msg h',
     AAEP_EPG.new parent epg encap h = (Raise (TypeError msg), h')) /\
  (conforms h parent cls_AAEP -> conforms h epg cls_EPG ->
   py_truthy encap = true -> is_valid_encap encap = false ->
   exists h',
     AAEP_EPG.new parent epg encap h
     = (Raise (ValueError ("Invalid encapsulation string: "
                           +:+ str_take 20 (py_str encap))), h')) /\
  (conforms h parent cls_AAEP -> conforms h epg cls_EPG ->
   encap_ok encap ->
   exists h', AAEP_EPG.new parent epg encap h = (Ok (List.length h), h')).
Proof.
  intros Hlp Hle. split; [|split; [|split]].
  - intros Ht Hn. unfold AAEP_EPG.new, AAEP_EPG.__init__.
    rewrite new_object_run, bind_run, bind_run.
    rewrite (check_fail _ _ _ _ _ Hlp Ht Hn). eauto.
  - intros Ht Hn. unfold AAEP_EPG.new, AAEP_EPG.__init__.
    rewrite new_object_run, bind_run, bind_run.
    destruct (check_total parent cls_AAEP
                "Parent must be instance of AccessEntityProfile"
                h (blank cls_AAEP_EPG) Hlp) as [-> | ->]; [|eauto].
    rewrite bind_run, (check_fail _ _ _ _ _ Hle Ht Hn). eauto.
  - intros Hp He Ht Hv. pose proof (conforms_parent_ok _ _ _ Hp) as Hpo.
    unfold AAEP_EPG.new, AAEP_EPG.__init__.
    rewrite new_object_run, bind_run.
    rewrite bind_run, (check_pass _ _ _ _ _ Hp).
    rewrite bind_run, (check_pass _ _ _ _ _ He).
    rewrite bind_run, (base_init_run h _ _ parent Hpo).
    run_alters. rewrite !alter_attach_fresh by assumption.
    rewrite bind_run, (tDn_assignment_run _ _ _ _ Hpo He).
    rewrite Ht, Hv. cbn [negb]. rewrite bind_run. unfold raise. eauto.
  - intros Hp He Hc. rewrite (AAEP_EPG_new_run _ _ _ _ Hp He Hc). eauto.
Qed.

Lemma lab_heap_AAEP : is_instance lab_heap (AObj 0%nat) cls_AAEP.
Proof. exists 0%nat, (AAEP_built (PyStr "aaep1") (AVal PyNone)). auto. Defined.

Lemma lab_heap_EPG : is_instance lab_heap (AObj 1%nat) cls_EPG.
Proof.
  exists 1%nat, lab_epg. auto.
Defined.

Lemma AAEP_EPG_init_errors_witness :
  (exists h',
     AAEP_EPG.new (AObj 1%nat) (AObj 1%nat) (PyStr "vlan-5") lab_heap
     = (Raise (TypeError "Parent must be instance of AccessEntityProfile"),
        h')) /\
  (exists h',
     AAEP_EPG.new (AObj 0%nat) (AObj 1%nat) (PyStr "vlan-4095") lab_heap
     = (Raise (ValueError ("Invalid encapsulation string: "
                           +:+ str_take 20 (py_str (PyStr "vlan-4095")))),
        h')) /\
  (exists h',
     AAEP_EPG.new (AObj 0%nat) (AObj 1%nat) (PyStr "vlan-5") lab_heap
     = (Ok (List.length lab_heap), h')).
Proof.
  split; [|split].
  - apply (AAEP_EPG_init_errors lab_heap (AObj 1%nat) (AObj 1%nat)
             (PyStr "vlan-5")); [cbn; lia | cbn; lia | reflexivity |].
    intros (r & n & Hr & Hn & Hc). injection Hr as <-.
    cbn in Hn. injection Hn as <-. discriminate Hc.
  - apply (AAEP_EPG_init_errors lab_heap (AObj 0%nat) (AObj 1%nat)
             (PyStr "vlan-4095")); [cbn; lia | cbn; lia | | | | ].
    + right. exact lab_heap_AAEP.
    + right. exact lab_heap_EPG.
    + reflexivity.
    + vm_compute. reflexivity.
  - apply (AAEP_EPG_init_errors lab_heap (AObj 0%nat) (AObj 1%nat)
             (PyStr "vlan-5")); [cbn; lia | cbn; lia | | | ].
    + right. exact lab_heap_AAEP.
    + right. exact lab_heap_EPG.
    + right. vm_compute. reflexivity.
Defined.

(** C8: an AAEP_EPG constructed with a live EPG has its tDn equal to the
    dn that EPG has when the constructor runs, and a later assignment to the
    EPG's dn leaves the attachment as it is; an AAEP_EPG constructed with no
    epg has tDn [None]. *)
Theorem AAEP_EPG_tDn_at_construction (h : heap) (parent epg : pyarg)
        (encap : pyval) :
  conforms h parent cls_AAEP ->
  encap_ok encap ->
  (forall e ne,
     epg = AObj e -> h !! e = Some ne -> n_class ne = cls_EPG ->
     exists h' n,
       AAEP_EPG.new parent epg encap h = (Ok (List.length h), h') /\
       h' !! List.length h = Some n /\
       tDn n = dn ne /\
       forall d', exists h'',
         update e (set_dn d') h' = (Ok tt, h'') /\
         h'' !! List.length h = Some n) /\
  (epg = AVal PyNone ->
   exists h' n,
     AAEP_EPG.new parent epg encap h = (Ok (List.length h), h') /\
     h' !! List.length h = Some n /\
     tDn n = PyNone).
Proof.
  intros Hp Hc. pose proof (conforms_parent_ok _ _ _ Hp) as Hpo. split.
  - intros e ne -> He Hcls.
    assert (conforms h (AObj e) cls_EPG) as Hce.
    { right. exists e, ne. auto. }
    rewrite (AAEP_EPG_new_run _ _ _ _ Hp Hce Hc).
    eexists _, _. split; [reflexivity|].
    split; [apply attach_lookup_fresh, Hpo|].
    split; [cbn; rewrite He; reflexivity|].
    intros d'. pose proof (lookup_lt_Some _ _ _ He) as Hlt.
    eexists. split; [apply update_alter; in_heap|].
    rewrite list_lookup_alter_ne by lia. apply attach_lookup_fresh, Hpo.
  - intros ->.
    assert (conforms h (AVal PyNone) cls_EPG) as Hce by (left; reflexivity).
    rewrite (AAEP_EPG_new_run _ _ _ _ Hp Hce Hc).
    eexists _, _. split; [reflexivity|].
    split; [apply attach_lookup_fresh, Hpo|]. reflexivity.
Qed.

Lemma AAEP_EPG_tDn_at_construction_witness :
  (exists h' n,
     AAEP_EPG.new (AObj 0%nat) (AObj 1%nat) (PyStr "vlan-5") lab_heap
     = (Ok (List.length lab_heap), h') /\
     h' !! List.length lab_heap = Some n /\
     tDn n = dn lab_epg /\
     forall d', exists h'',
       update 1%nat (set_dn d') h' = (Ok tt, h'') /\
       h'' !! List.length lab_heap = Some n) /\
  (exists h' n,
     AAEP_EPG.new (AObj 0%nat) (AVal PyNone) (PyStr "vlan-5") lab_heap
     = (Ok (List.length lab_heap), h') /\
     h' !! List.length lab_heap = Some n /\
     tDn n = PyNone).
Proof.
  split.
  - refine (proj1 (AAEP_EPG_tDn_at_construction lab_heap (AObj 0%nat)
                     (AObj 1%nat) (PyStr "vlan-5") _ _) 1%nat lab_epg _ _ _).
    + right. exact lab_heap_AAEP.
    + right. vm_compute. reflexivity.
    + reflexivity.
    + reflexivity.
    + reflexivity.
  - refine (proj2 (AAEP_EPG_tDn_at_construction lab_heap (AObj 0%nat)
                     (AVal PyNone) (PyStr "vlan-5") _ _) _).
    + right. exact lab_heap_AAEP.
    + right. vm_compute. reflexivity.
    + reflexivity.
Defined.




(** ** Decoding controller records *)

Lemma item_run {V B : Type} (d : gmap string V) (k : string) (v : V)
      (f : V -> M B) (h : heap) :
  d !! k = Some v -> (item d k ≫= f) h = f v h.
Proof. intros Hk. unfold item. rewrite Hk. reflexivity. Qed.

Lemma record_attributes_Some (r : record) (a : attributes) :
  record_attributes r = Some a ->
  exists mo, r !! AAEP.apic_class = Some mo /\ mo !! "attributes" = Some a.
Proof.
  unfold record_attributes. intros Hr.
  destruct (r !! AAEP.apic_class) as [mo|]; [|discriminate]. eauto.
Qed.

Lemma attribute_data_run {B : Type} (r : record) (a : attributes)
      (f : attributes -> M B) (h : heap) :
  record_attributes r = Some a -> (AAEP.attribute_data r ≫= f) h = f a h.
Proof.
  intros (mo & Hmo & Ha)%record_attributes_Some. unfold AAEP.attribute_data.
  rewrite bind_run, (item_run _ _ _ _ _ Hmo).
  unfold item. rewrite Ha. reflexivity.
Qed.

Lemma attribute_run {B : Type} (r : record) (a : attributes) (k : string)
      (v : pyval) (f : pyval -> M B) (h : heap) :
  record_attributes r = Some a -> a !! k = Some v ->
  (AAEP.attribute r k ≫= f) h = f v h.
Proof.
  intros Hr Hk. unfold AAEP.attribute.
  rewrite bind_run, (attribute_data_run _ _ _ _ Hr).
  unfold item. rewrite Hk. reflexivity.
Qed.

Lemma attribute_missing {B : Type} (r : record) (a : attributes) (k : string)
      (f : pyval -> M B) (h : heap) :
  record_attributes r = Some a -> a !! k = None ->
  (AAEP.attribute r k ≫= f) h = (Raise (KeyError k), h).
Proof.
  intros Hr Hk. unfold AAEP.attribute.
  rewrite bind_run, (attribute_data_run _ _ _ _ Hr).
  unfold item. rewrite Hk. reflexivity.
Qed.

(** A record without the class key or without ['attributes'] stops the
    decoding with a [KeyError] at the first subscript. *)
Lemma attribute_no_mapping {B : Type} (r : record) (k : string)
      (f : pyval -> M B) (h : heap) :
  record_attributes r = None ->
  exists key, (AAEP.attribute r k ≫= f) h = (Raise (KeyError key), h).
Proof.
  unfold record_attributes. intros Hr.
  unfold AAEP.attribute, AAEP.attribute_data, item, raise.
  unfold mbind at 1 2 3, M_bind.
  destruct (r !! AAEP.apic_class) as [mo|]; [|eexists; reflexivity].
  cbn in Hr. unfold mret, M_ret. cbv beta iota. rewrite Hr.
  eexists; reflexivity.
Qed.

Lemma dict_get_Some (a : attributes) (k : string) (v : pyval) :
  a !! k = Some v -> dict_get a k = v.
Proof. unfold dict_get. intros ->. reflexivity. Qed.

Lemma get_step_run (h : heap) (parent : pyarg) (r : record) (a : attributes) :
  parent_ok h parent ->
  complete get_keys r a ->
  AAEP.get_step parent r h =
  (Ok (List.length h),
   attach parent (List.length h) (h ++ [AAEP_decoded a parent])).
Proof.
  intros Hp [Hr Hk]. unfold get_keys in Hk.
  repeat (apply Forall_cons in Hk as [[? ?] Hk]).
  unfold AAEP.get_step.
  erewrite attribute_run by eassumption.
  rewrite bind_run, (AAEP_new_run _ _ _ Hp).
  rewrite (attribute_data_run _ _ _ _ Hr).
  unfold BaseACIObject._populate_from_attributes.
  rewrite bind_run. run_alters. rewrite !alter_attach_fresh by assumption.
  erewrite attribute_run by eassumption.
  run_alters. rewrite !alter_attach_fresh by assumption.
  erewrite attribute_run by eassumption.
  run_alters. rewrite !alter_attach_fresh by assumption.
  erewrite attribute_run by eassumption.
  run_alters. rewrite !alter_attach_fresh by assumption.
  unfold AAEP_decoded, decoded_name.
  repeat (erewrite (dict_get_Some a) by eassumption).
  reflexivity.
Qed.

Lemma length_attach_fresh (h : heap) (parent : pyarg) (x : node) :
  List.length (attach parent (List.length h) (h ++ [x])) = S (List.length h).
Proof. rewrite length_attach, length_app. cbn. lia. Qed.

Lemma parent_ok_grow (h : heap) (parent : pyarg) (x : node) :
  parent_ok h parent ->
  parent_ok (attach parent (List.length h) (h ++ [x])) parent.
Proof.
  destruct parent as [v | p]; cbn [parent_ok]; [auto|].
  intros Hp. rewrite length_attach_fresh. lia.
Qed.

Lemma get_loop_run (parent : pyarg) (data : list record)
      (attrs : list attributes) :
  Forall2 (complete get_keys) data attrs ->
  forall (h : heap) (resp : list ref),
    parent_ok h parent ->
    AAEP.get_loop parent data resp h =
    (Ok (resp ++ seq (List.length h) (List.length data)),
     decode_all parent attrs h).
Proof.
  induction 1 as [| r a data attrs Hra _ IH]; intros h resp Hp.
  - cbn. rewrite app_nil_r. reflexivity.
  - cbn [AAEP.get_loop]. rewrite bind_run, (get_step_run _ _ _ _ Hp Hra).
    rewrite IH by (apply parent_ok_grow, Hp).
    rewrite length_attach_fresh. cbn [decode_all List.length seq].
    rewrite <- app_assoc. reflexivity.
Qed.

Lemma decode_all_length (parent : pyarg) (attrs : list attributes) (h : heap) :
  List.length (decode_all parent attrs h)
  = (List.length h + List.length attrs)%nat.
Proof.
  revert h. induction attrs as [| a rest IH]; intros h; cbn.
  - lia.
  - rewrite IH, length_attach_fresh. lia.
Qed.

(** Instances other than the parent are left alone. *)
Lemma decode_all_old (parent : pyarg) (attrs : list attributes) (h : heap)
      (r : ref) :
  (r < List.length h)%nat -> parent <> AObj r ->
  decode_all parent attrs h !! r = h !! r.
Proof.
  revert h. induction attrs as [| a rest IH]; intros h Hr Hne; cbn.
  - reflexivity.
  - rewrite IH by (rewrite ?length_attach_fresh; auto with lia).
    destruct parent as [v | p]; cbn [attach].
    + apply lookup_app_l, Hr.
    + rewrite list_lookup_alter_ne by congruence. apply lookup_app_l, Hr.
Qed.

(** The [i]-th mapping is decoded into the [i]-th fresh instance. *)
Lemma decode_all_new (parent : pyarg) (attrs : list attributes) (h : heap)
      (i : nat) (a : attributes) :
  parent_ok h parent -> attrs !! i = Some a ->
  decode_all parent attrs h !! (List.length h + i)%nat
  = Some (AAEP_decoded a parent).
Proof.
  revert h i. induction attrs as [| a0 rest IH]; intros h i Hp Hi.
  - discriminate.
  - cbn [decode_all]. destruct i as [| i].
    + injection Hi as ->. rewrite Nat.add_0_r.
      rewrite decode_all_old.
      * apply attach_lookup_fresh, Hp.
      * rewrite length_attach_fresh. lia.
      * destruct parent as [v | p]; [discriminate|]. cbn in Hp.
        intros [= ->]. lia.
    + cbn in Hi.
      replace (List.length h + S i)%nat with
        (List.length (attach parent (List.length h)
                        (h ++ [AAEP_decoded a0 parent])) + i)%nat
        by (rewrite length_attach_fresh; lia).
      apply IH; [apply parent_ok_grow, Hp | exact Hi].
Qed.

(** The parent gains the fresh instances as children, in order, after the
    children it had. *)
Lemma decode_all_parent (p : ref) (attrs : list attributes) (h : heap)
      (np : node) :
  h !! p = Some np ->
  decode_all (AObj p) attrs h !! p
  = Some (set_children
            (_children np ++ seq (List.length h) (List.length attrs)) np).
Proof.
  revert h np. induction attrs as [| a rest IH]; intros h np Hp.
  - cbn. rewrite app_nil_r, Hp. destruct np; reflexivity.
  - cbn [decode_all].
    erewrite IH.
    2:{ cbn [attach]. rewrite list_lookup_alter_eq.
        rewrite (lookup_app_l_Some _ _ _ _ Hp). reflexivity. }
    rewrite length_attach_fresh. cbn [List.length seq].
    unfold add_child, set_children. cbn.
    rewrite <- app_assoc. reflexivity.
Qed.

(** C2: when the session answers the AAEP query with a body whose [imdata]
    holds [k] records of class infraAttEntityP (each with the name, dn, lcOwn
    and childAction attributes), [AAEP.get] returns [k] fresh AAEP instances
    in record order; the [i]-th has its name, dn, lcOwn and childAction from
    the [i]-th record; and every one is attached under the supplied parent,
    whatever dn its record carries. *)
Theorem AAEP_get_decodes_records (s : Session) (parent : pyarg) (h : heap)
        (b : body) (records : list record) (attrs : list attributes) :
  session_get s AAEP.query_url = Ok b ->
  b !! "imdata" = Some records ->
  Forall2 (complete get_keys) records attrs ->
  parent_ok h parent ->
  exists h',
    AAEP.get (Some s) parent h
    = (Ok (seq (List.length h) (List.length records)), h') /\
    (forall i r,
       records !! i = Some r ->
       exists a n,
         record_attributes r = Some a /\
         h' !! (List.length h + i)%nat = Some n /\
         n_class n = cls_AAEP /\
         (exists v, a !! "name" = Some v /\ name n = PyStr (py_str v)) /\
         a !! "dn" = Some (dn n) /\
         a !! "lcOwn" = Some (lcOwn n) /\
         a !! "childAction" = Some (childAction n) /\
         _parent n = parent) /\
    (forall p np,
       parent = AObj p -> h !! p = Some np ->
       exists np',
         h' !! p = Some np' /\
         _children np'
         = _children np ++ seq (List.length h) (List.length records)).
Proof.
  intros Hs Hb Hall Hp. exists (decode_all parent attrs h).
  split; [|split].
  - unfold AAEP.get, AAEP.query, lift. rewrite bind_run, Hs.
    rewrite (item_run _ _ _ _ _ Hb).
    rewrite (get_loop_run _ _ _ Hall) by exact Hp. reflexivity.
  - intros i r Hi.
    destruct (Forall2_lookup_l _ _ _ _ _ Hall Hi) as (a & Ha & [Hr Hk]).
    exists a, (AAEP_decoded a parent).
    unfold get_keys in Hk.
    repeat (apply Forall_cons in Hk as [[? ?] Hk]).
    split; [exact Hr|].
    split; [apply decode_all_new; assumption|].
    split; [reflexivity|].
    cbn. unfold decoded_name.
    repeat (erewrite (dict_get_Some a) by eassumption).
    eauto 10.
  - intros p np -> Hnp.
    rewrite (decode_all_parent _ _ _ _ Hnp).
    rewrite (Forall2_length _ _ _ Hall).
    eexists. split; [reflexivity|]. reflexivity.
Qed.

Lemma profile_complete (keys : list string) (nm dn_ lc ca de : string) :
  keys ⊆ get_by_name_keys ->
  complete keys (profile nm dn_ lc ca de) (profile_attributes nm dn_ lc ca de).
Proof.
  intros Hsub. split; [reflexivity|].
  apply Forall_forall. intros k Hk%Hsub. unfold get_by_name_keys in Hk.
  repeat (apply elem_of_cons in Hk as [-> | Hk]; [eexists; reflexivity|]).
  inversion Hk.
Defined.

Lemma get_keys_subset : get_keys ⊆ get_by_name_keys.
Proof.
  intros k Hk. unfold get_keys in Hk. unfold get_by_name_keys.
  repeat (apply elem_of_cons in Hk as [-> | Hk];
          [repeat first [apply list_elem_of_here | apply list_elem_of_further]|]).
  inversion Hk.
Defined.

Lemma lab_records_complete (keys : list string) :
  keys ⊆ get_by_name_keys ->
  Forall2 (complete keys) lab_records lab_attributes.
Proof.
  intros Hsub. repeat (constructor; [apply profile_complete, Hsub|]).
  constructor.
Defined.

Lemma AAEP_get_decodes_records_witness :
  exists h',
    AAEP.get (Some lab_session) (AObj 0%nat) lab_model_heap
    = (Ok (seq (List.length lab_model_heap) (List.length lab_records)), h') /\
    (forall i r,
       lab_records !! i = Some r ->
       exists a n,
         record_attributes r = Some a /\
         h' !! (List.length lab_model_heap + i)%nat = Some n /\
         n_class n = cls_AAEP /\
         (exists v, a !! "name" = Some v /\ name n = PyStr (py_str v)) /\
         a !! "dn" = Some (dn n) /\
         a !! "lcOwn" = Some (lcOwn n) /\
         a !! "childAction" = Some (childAction n) /\
         _parent n = AObj 0%nat) /\
    (forall p np,
       AObj 0%nat = AObj p -> lab_model_heap !! p = Some np ->
       exists np',
         h' !! p = Some np' /\
         _children np'
         = _children np
           ++ seq (List.length lab_model_heap) (List.length lab_records)).
Proof.
  apply (AAEP_get_decodes_records lab_session (AObj 0%nat) lab_model_heap
           lab_body lab_records lab_attributes).
  - reflexivity.
  - reflexivity.
  - apply lab_records_complete, get_keys_subset.
  - cbn. lia.
Defined.

Example AAEP_get_lab :
  fst (AAEP.get (Some lab_session) (AObj 0%nat) lab_model_heap)
  = Ok [1; 2; 3]%nat.
Proof. vm_compute. reflexivity. Qed.

(** Run one iteration of a decoding loop on a record whose attribute mapping
    is known ([Hr]), under an acceptable parent ([Hp]); a missing key ends
    the run with the [KeyError]. *)
Ltac run_decoding Hp Hr :=
  repeat first
    [ erewrite attribute_missing by eassumption; eexists _, _; reflexivity
    | erewrite attribute_run by eassumption
    | rewrite (attribute_data_run _ _ _ _ Hr)
    | rewrite bind_run, (AAEP_new_run _ _ _ Hp)
    | progress (run_alters; rewrite ?alter_attach_fresh by exact Hp)
    | rewrite bind_run; progress (run_alters;
                                  rewrite ?alter_attach_fresh by exact Hp) ].

Lemma get_step_total (h : heap) (parent : pyarg) (r : record) :
  parent_ok h parent ->
  (exists a,
     complete get_keys r a /\
     AAEP.get_step parent r h =
     (Ok (List.length h),
      attach parent (List.length h) (h ++ [AAEP_decoded a parent]))) \/
  (exists key h', AAEP.get_step parent r h = (Raise (KeyError key), h')).
Proof.
  intros Hp.
  destruct (record_attributes r) as [a|] eqn:Hr.
  2:{ right. unfold AAEP.get_step.
      destruct (attribute_no_mapping r "name"
                  (fun nm =>
                     obj ← AAEP.new (PyStr (py_str nm)) parent;
                     a ← AAEP.attribute_data r;
                     BaseACIObject._populate_from_attributes obj a ;;
                     v ← AAEP.attribute r "dn";
                     update obj (set_dn v) ;;
                     v ← AAEP.attribute r "lcOwn";
                     update obj (set_lcOwn v) ;;
                     v ← AAEP.attribute r "childAction";
                     update obj (set_childAction v) ;;
                     mret obj) h Hr) as (key & Hkey).
      exists key, h. exact Hkey. }
  destruct (a !! "name") as [v1|] eqn:H1;
    [|right; unfold AAEP.get_step; run_decoding Hp Hr].
  destruct (a !! "dn") as [v2|] eqn:H2;
    [|right; unfold AAEP.get_step, BaseACIObject._populate_from_attributes;
      run_decoding Hp Hr].
  destruct (a !! "lcOwn") as [v3|] eqn:H3;
    [|right; unfold AAEP.get_step, BaseACIObject._populate_from_attributes;
      run_decoding Hp Hr].
  destruct (a !! "childAction") as [v4|] eqn:H4;
    [|right; unfold AAEP.get_step, BaseACIObject._populate_from_attributes;
      run_decoding Hp Hr].
  assert (complete get_keys r a) as Hc.
  { split; [exact Hr|]. unfold get_keys.
    repeat (apply Forall_cons; split; [eexists; eassumption|]).
    apply Forall_nil_2. }
  left. exists a. split; [exact Hc|]. apply get_step_run; assumption.
Qed.

Lemma get_by_name_step_run (h : heap) (r : record) (a : attributes) :
  complete get_by_name_keys r a ->
  AAEP.get_by_name_step r h =
  (Ok (decoded_name a, List.length h), h ++ [AAEP_fetched a]).
Proof.
  intros [Hr Hk]. unfold get_by_name_keys in Hk.
  repeat (apply Forall_cons in Hk as [[? ?] Hk]).
  assert (parent_ok h (AVal PyNone)) as Hp by reflexivity.
  unfold AAEP.get_by_name_step, BaseACIObject._populate_from_attributes.
  run_decoding Hp Hr.
  unfold AAEP_fetched, AAEP_decoded, decoded_name.
  repeat (erewrite (dict_get_Some a) by eassumption).
  reflexivity.
Qed.

Lemma get_by_name_step_total (h : heap) (r : record) :
  (exists a,
     complete get_by_name_keys r a /\
     AAEP.get_by_name_step r h =
     (Ok (decoded_name a, List.length h), h ++ [AAEP_fetched a])) \/
  (exists key h', AAEP.get_by_name_step r h = (Raise (KeyError key), h')).
Proof.
  assert (parent_ok h (AVal PyNone)) as Hp by reflexivity.
  destruct (record_attributes r) as [a|] eqn:Hr.
  2:{ right. unfold AAEP.get_by_name_step.
      destruct (attribute_no_mapping r "name"
                  (fun nm =>
                     obj ← AAEP.new (PyStr (py_str nm)) (AVal PyNone);
                     a ← AAEP.attribute_data r;
                     BaseACIObject._populate_from_attributes obj a ;;
                     v ← AAEP.attribute r "dn";
                     update obj (set_dn v) ;;
                     v ← AAEP.attribute r "lcOwn";
                     update obj (set_lcOwn v) ;;
                     v ← AAEP.attribute r "childAction";
                     update obj (set_childAction v) ;;
                     v ← AAEP.attribute r "descr";
                     update obj (set_descr v) ;;
                     mret (py_str nm, obj)) h Hr) as (key & Hkey).
      exists key, h. exact Hkey. }
  destruct (a !! "name") as [v1|] eqn:H1;
    [|right; unfold AAEP.get_by_name_step; run_decoding Hp Hr].
  destruct (a !! "dn") as [v2|] eqn:H2;
    [|right;
      unfold AAEP.get_by_name_step, BaseACIObject._populate_from_attributes;
      run_decoding Hp Hr].
  destruct (a !! "lcOwn") as [v3|] eqn:H3;
    [|right;
      unfold AAEP.get_by_name_step, BaseACIObject._populate_from_attributes;
      run_decoding Hp Hr].
  destruct (a !! "childAction") as [v4|] eqn:H4;
    [|right;
      unfold AAEP.get_by_name_step, BaseACIObject._populate_from_attributes;
      run_decoding Hp Hr].
  destruct (a !! "descr") as [v5|] eqn:H5;
    [|right;
      unfold AAEP.get_by_name_step, BaseACIObject._populate_from_attributes;
      run_decoding Hp Hr].
  assert (complete get_by_name_keys r a) as Hc.
  { split; [exact Hr|]. unfold get_by_name_keys.
    repeat (apply Forall_cons; split; [eexists; eassumption|]).
    apply Forall_nil_2. }
  left. exists a. split; [exact Hc|]. apply get_by_name_step_run, Hc.
Qed.

Lemma complete_functional (keys : list string) (r : record)
      (a a' : attributes) :
  complete keys r a -> record_attributes r = Some a' -> a = a'.
Proof. intros [Hr _] Hr'. congruence. Qed.

Lemma decoded_name_matches (aaep_name : pyval) (r : record) (a : attributes) :
  complete get_by_name_keys r a ->
  py_str_eq (decoded_name a) aaep_name = true <-> matches aaep_name r.
Proof.
  intros [Hr Hk]. unfold get_by_name_keys in Hk.
  apply Forall_cons in Hk as [[v Hv] _]. unfold decoded_name.
  rewrite (dict_get_Some _ _ _ Hv). split.
  - intros Hm. exists a, v. auto.
  - intros (a' & v' & Hr' & Hv' & Hm). congruence.
Qed.

Lemma not_matches_false (aaep_name : pyval) (r : record) (a : attributes) :
  complete get_by_name_keys r a -> ~ matches aaep_name r ->
  py_str_eq (decoded_name a) aaep_name = false.
Proof.
  intros Hc Hn. destruct (py_str_eq (decoded_name a) aaep_name) eqn:E;
    [|reflexivity].
  exfalso. apply Hn. apply (decoded_name_matches _ _ _ Hc), E.
Qed.

(** Complete records that do not match are decoded and passed over. *)
Lemma get_by_name_loop_skip (aaep_name : pyval) (pre rest : list record) :
  Forall (fun r => exists a, complete get_by_name_keys r a) pre ->
  Forall (fun r => ~ matches aaep_name r) pre ->
  forall h : heap,
  exists h1,
    List.length h1 = (List.length h + List.length pre)%nat /\
    AAEP.get_by_name_loop aaep_name (pre ++ rest) h
    = AAEP.get_by_name_loop aaep_name rest h1.
Proof.
  induction pre as [| r pre IH]; intros Hc Hn h.
  - exists h. split; [cbn; lia | reflexivity].
  - apply Forall_cons in Hc as [[a Ha] Hc]. apply Forall_cons in Hn as [Hr Hn].
    destruct (IH Hc Hn (h ++ [AAEP_fetched a])) as (h1 & Hlen & Hrun).
    exists h1. split.
    + rewrite Hlen, length_app. cbn. lia.
    + cbn [app AAEP.get_by_name_loop].
      rewrite bind_run, (get_by_name_step_run _ _ _ Ha).
      rewrite (not_matches_false _ _ _ Ha Hr). exact Hrun.
Qed.

(** C5: [AAEP.get_by_name] returns the instance decoded from the first
    record whose decoded name equals [aaep_name] (the records before it being
    decoded and passed over), and returns [None], without raising, when no
    record's name matches. *)
Theorem AAEP_get_by_name_first_match (s : Session) (aaep_name : pyval)
        (h : heap) (b : body) (records : list record) :
  session_get s AAEP.query_url = Ok b ->
  b !! "imdata" = Some records ->
  (forall pre r post a,
     records = pre ++ r :: post ->
     Forall (fun r' => exists a', complete get_by_name_keys r' a') pre ->
     Forall (fun r' => ~ matches aaep_name r') pre ->
     complete get_by_name_keys r a ->
     matches aaep_name r ->
     exists h' obj n,
       AAEP.get_by_name (Some s) aaep_name h = (Ok (AObj obj), h') /\
       h' !! obj = Some n /\
       n_class n = cls_AAEP /\
       (exists v, a !! "name" = Some v /\ name n = PyStr (py_str v) /\
                  py_str_eq (py_str v) aaep_name = true) /\
       a !! "dn" = Some (dn n) /\
       a !! "lcOwn" = Some (lcOwn n) /\
       a !! "childAction" = Some (childAction n) /\
       a !! "descr" = Some (descr n)) /\
  (Forall (fun r => exists a, complete get_by_name_keys r a) records ->
   Forall (fun r => ~ matches aaep_name r) records ->
   exists h',
     AAEP.get_by_name (Some s) aaep_name h = (Ok (AVal PyNone), h')).
Proof.
  intros Hs Hb. split.
  - intros pre r post a -> Hc Hn Ha Hm.
    destruct (get_by_name_loop_skip aaep_name pre (r :: post) Hc Hn h)
      as (h1 & Hlen & Hrun).
    exists (h1 ++ [AAEP_fetched a]), (List.length h1), (AAEP_fetched a).
    split; [|split; [|split]].
    + unfold AAEP.get_by_name, AAEP.query, lift. rewrite bind_run, Hs.
      rewrite (item_run _ _ _ _ _ Hb), Hrun.
      cbn [AAEP.get_by_name_loop].
      rewrite bind_run, (get_by_name_step_run _ _ _ Ha).
      apply (decoded_name_matches _ _ _ Ha) in Hm. rewrite Hm. reflexivity.
    + apply list_lookup_middle. reflexivity.
    + reflexivity.
    + apply (decoded_name_matches _ _ _ Ha) in Hm.
      destruct Ha as [Hr Hk]. unfold get_by_name_keys in Hk.
      repeat (apply Forall_cons in Hk as [[? ?] Hk]).
      cbn. unfold decoded_name in *.
      repeat (erewrite (dict_get_Some a) in * by eassumption).
      eauto 10.
  - intros Hc Hn.
    destruct (get_by_name_loop_skip aaep_name records [] Hc Hn h)
      as (h1 & Hlen & Hrun).
    exists h1. unfold AAEP.get_by_name, AAEP.query, lift.
    rewrite bind_run, Hs, (item_run _ _ _ _ _ Hb).
    rewrite app_nil_r in Hrun. rewrite Hrun. reflexivity.
Qed.

Lemma profile_matches (aaep_name : pyval) (nm dn_ lc ca de : string) :
  matches aaep_name (profile nm dn_ lc ca de)
  <-> py_str_eq nm aaep_name = true.
Proof.
  symmetry.
  apply (decoded_name_matches aaep_name _
           (profile_attributes nm dn_ lc ca de)).
  apply profile_complete. intros k Hk. exact Hk.
Defined.

Lemma profile_not_matches (aaep_name : pyval) (nm dn_ lc ca de : string) :
  py_str_eq nm aaep_name = false ->
  ~ matches aaep_name (profile nm dn_ lc ca de).
Proof.
  intros Hne Hm%profile_matches. congruence.
Defined.

Lemma lab_records_all_complete :
  Forall (fun r => exists a, complete get_by_name_keys r a) lab_records.
Proof.
  repeat (apply Forall_cons; split;
          [eexists; apply profile_complete; intros k Hk; exact Hk|]).
  apply Forall_nil_2.
Defined.

Lemma AAEP_get_by_name_first_match_witness :
  (exists h' obj n,
     AAEP.get_by_name (Some lab_session) (PyStr "x") [] = (Ok (AObj obj), h') /\
     h' !! obj = Some n /\
     n_class n = cls_AAEP /\
     (exists v,
        profile_attributes "x" "uni/infra/attentp-x" "local" "" "lab"
          !! "name" = Some v /\
        name n = PyStr (py_str v) /\
        py_str_eq (py_str v) (PyStr "x") = true) /\
     profile_attributes "x" "uni/infra/attentp-x" "local" "" "lab" !! "dn"
     = Some (dn n) /\
     profile_attributes "x" "uni/infra/attentp-x" "local" "" "lab" !! "lcOwn"
     = Some (lcOwn n) /\
     profile_attributes "x" "uni/infra/attentp-x" "local" "" "lab"
       !! "childAction" = Some (childAction n) /\
     profile_attributes "x" "uni/infra/attentp-x" "local" "" "lab" !! "descr"
     = Some (descr n)) /\
  (exists h',
     AAEP.get_by_name (Some lab_session) (PyStr "missing") []
     = (Ok (AVal PyNone), h')).
Proof.
  split.
  - apply (proj1 (AAEP_get_by_name_first_match lab_session (PyStr "x") []
                    lab_body lab_records eq_refl eq_refl)
             [profile "default" "uni/infra/attentp-default" "local" "" ""]
             (profile "x" "uni/infra/attentp-x" "local" "" "lab")
             [profile "prod" "uni/infra/attentp-prod" "policy" "" ""]).
    + reflexivity.
    + apply Forall_cons; split; [|apply Forall_nil_2].
      eexists. apply profile_complete. intros k Hk. exact Hk.
    + apply Forall_cons; split; [|apply Forall_nil_2].
      apply profile_not_matches. reflexivity.
    + apply profile_complete. intros k Hk. exact Hk.
    + apply profile_matches. reflexivity.
  - apply (proj2 (AAEP_get_by_name_first_match lab_session (PyStr "missing")
                    [] lab_body lab_records eq_refl eq_refl)).
    + exact lab_records_all_complete.
    + repeat (apply Forall_cons; split;
              [apply profile_not_matches; reflexivity|]).
      apply Forall_nil_2.
Defined.

Example get_by_name_lab :
  fst (AAEP.get_by_name (Some lab_session) (PyStr "x") []) = Ok (AObj 1%nat).
Proof. vm_compute. reflexivity. Qed.

(** ** Records with missing keys *)

Lemma complete_has_key (keys : list string) (r : record) (a : attributes)
      (k : string) :
  complete keys r a -> k ∈ keys -> a !! k <> None.
Proof.
  intros [_ Hk] Hin Hnone.
  rewrite Forall_forall in Hk. destruct (Hk k Hin) as [v Hv]. congruence.
Qed.

Lemma get_loop_missing_key (parent : pyarg) (data : list record) :
  forall (i : nat) (r : record) (a : attributes) (k : string) (h : heap)
         (resp : list ref),
    parent_ok h parent ->
    data !! i = Some r ->
    record_attributes r = Some a ->
    k ∈ get_keys ->
    a !! k = None ->
    exists key h',
      AAEP.get_loop parent data resp h = (Raise (KeyError key), h').
Proof.
  induction data as [| r0 data IH]; intros i r a k h resp Hp Hi Hr Hk Hnone.
  - discriminate.
  - cbn [AAEP.get_loop]. rewrite bind_run.
    destruct (get_step_total h parent r0 Hp)
      as [(a0 & Hc0 & ->) | (key & h' & ->)]; [|eauto].
    destruct i as [| i].
    + injection Hi as ->.
      rewrite (complete_functional _ _ _ _ Hc0 Hr) in Hc0.
      destruct (complete_has_key _ _ _ _ Hc0 Hk Hnone).
    + cbn in Hi.
      eapply IH; [apply parent_ok_grow, Hp | exact Hi | exact Hr
                  | exact Hk | exact Hnone].
Qed.

Lemma get_by_name_loop_missing_key (aaep_name : pyval) (data : list record) :
  forall (i : nat) (r : record) (a : attributes) (k : string) (h : heap),
    data !! i = Some r ->
    record_attributes r = Some a ->
    k ∈ get_by_name_keys ->
    a !! k = None ->
    (forall j rj, (j < i)%nat -> data !! j = Some rj ->
                  ~ matches aaep_name rj) ->
    exists key h',
      AAEP.get_by_name_loop aaep_name data h = (Raise (KeyError key), h').
Proof.
  induction data as [| r0 data IH]; intros i r a k h Hi Hr Hk Hnone Hpre.
  - discriminate.
  - cbn [AAEP.get_by_name_loop]. rewrite bind_run.
    destruct (get_by_name_step_total h r0)
      as [(a0 & Hc0 & ->) | (key & h' & ->)]; [|eauto].
    destruct i as [| i].
    + injection Hi as ->.
      rewrite (complete_functional _ _ _ _ Hc0 Hr) in Hc0.
      destruct (complete_has_key _ _ _ _ Hc0 Hk Hnone).
    + cbn in Hi.
      rewrite (not_matches_false _ _ _ Hc0 (Hpre 0%nat r0 (Nat.lt_0_succ i) eq_refl)).
      eapply IH; [exact Hi | exact Hr | exact Hk | exact Hnone |].
      intros j rj Hj Hrj. apply (Hpre (S j) rj); [lia | exact Hrj].
Qed.

(** C10: a record that [AAEP.get] decodes must carry the keys name, dn,
    lcOwn and childAction, and a record that [AAEP.get_by_name] decodes (one
    not preceded by a record with the requested name) must carry descr as
    well: when one of them is absent the call raises a [KeyError].  The
    [_populate_from_attributes] methods on their own never raise on a missing
    key and leave [None] in the field. *)
Theorem AAEP_queries_require_keys (s : Session) (h : heap) (b : body)
        (records : list record) :
  session_get s AAEP.query_url = Ok b ->
  b !! "imdata" = Some records ->
  (forall parent i r a k,
     parent_ok h parent ->
     records !! i = Some r ->
     record_attributes r = Some a ->
     k ∈ get_keys ->
     a !! k = None ->
     exists key h',
       AAEP.get (Some s) parent h = (Raise (KeyError key), h')) /\
  (forall aaep_name i r a k,
     records !! i = Some r ->
     record_attributes r = Some a ->
     k ∈ get_by_name_keys ->
     a !! k = None ->
     (forall j rj, (j < i)%nat -> records !! j = Some rj ->
                   ~ matches aaep_name rj) ->
     exists key h',
       AAEP.get_by_name (Some s) aaep_name h = (Raise (KeyError key), h')) /\
  (forall obj n a,
     h !! obj = Some n ->
     exists n',
       BaseACIObject._populate_from_attributes obj a h
       = (Ok tt, <[obj := n']> h) /\
       (a !! "dn" = None -> dn n' = PyNone) /\
       (a !! "lcOwn" = None -> lcOwn n' = PyNone) /\
       (a !! "childAction" = None -> childAction n' = PyNone)) /\
  (forall obj n a,
     h !! obj = Some n ->
     exists n',
       AAEP_EPG._populate_from_attributes obj a h
       = (Ok tt, <[obj := n']> h) /\
       (a !! "dn" = None -> dn n' = PyNone) /\
       (a !! "lcOwn" = None -> lcOwn n' = PyNone) /\
       (a !! "childAction" = None -> childAction n' = PyNone) /\
       (a !! "tDn" = None -> tDn n' = PyNone) /\
       (a !! "encap" = None -> encap n' = PyNone)).
Proof.
  intros Hs Hb. split; [|split; [|split]].
  - intros parent i r a k Hp Hi Hr Hk Hnone.
    unfold AAEP.get, AAEP.query, lift.
    rewrite bind_run, Hs, (item_run _ _ _ _ _ Hb).
    eapply get_loop_missing_key; eassumption.
  - intros aaep_name i r a k Hi Hr Hk Hnone Hpre.
    unfold AAEP.get_by_name, AAEP.query, lift.
    rewrite bind_run, Hs, (item_run _ _ _ _ _ Hb).
    eapply get_by_name_loop_missing_key; eassumption.
  - intros obj n a Hn. eexists. split.
    + unfold BaseACIObject._populate_from_attributes.
      run_updates Hn. reflexivity.
    + cbn. unfold BaseACIObject.get_dn_from_attributes, dict_get.
      repeat split; intros ->; reflexivity.
  - intros obj n a Hn. eexists. split.
    + apply AAEP_EPG_populate_run, Hn.
    + cbn. unfold BaseACIObject.get_dn_from_attributes, dict_get.
      repeat split; intros ->; reflexivity.
Qed.

Lemma AAEP_queries_require_keys_witness :
  (exists key h',
     AAEP.get (Some partial_session) (AVal PyNone) lab_heap
     = (Raise (KeyError key), h')) /\
  (exists key h',
     AAEP.get_by_name (Some partial_session) (PyStr "x") lab_heap
     = (Raise (KeyError key), h')) /\
  (exists n',
     AAEP_EPG._populate_from_attributes 1%nat partial_attributes lab_heap
     = (Ok tt, <[1%nat := n']> lab_heap) /\
     (partial_attributes !! "dn" = None -> dn n' = PyNone) /\
     (partial_attributes !! "lcOwn" = None -> lcOwn n' = PyNone) /\
     (partial_attributes !! "childAction" = None -> childAction n' = PyNone) /\
     (partial_attributes !! "tDn" = None -> tDn n' = PyNone) /\
     (partial_attributes !! "encap" = None -> encap n' = PyNone)).
Proof.
  pose proof (AAEP_queries_require_keys partial_session lab_heap
                {[ "imdata" := partial_records ]} partial_records
                eq_refl eq_refl) as (Hget & Hname & _ & Hpop).
  split; [|split].
  - apply (Hget (AVal PyNone) 1%nat partial_record partial_attributes "lcOwn");
      try reflexivity.
    do 2 apply list_elem_of_further. apply list_elem_of_here.
  - apply (Hname (PyStr "x") 1%nat partial_record partial_attributes "lcOwn");
      try reflexivity.
    + do 2 apply list_elem_of_further. apply list_elem_of_here.
    + intros j rj Hj Hrj. destruct j as [| j]; [|lia].
      injection Hrj as <-. apply profile_not_matches. reflexivity.
  - apply (Hpop 1%nat lab_epg partial_attributes). reflexivity.
Defined.

Example get_partial :
  fst (AAEP.get (Some partial_session) (AVal PyNone) lab_heap)
  = Raise (KeyError "lcOwn").
Proof. vm_compute. reflexivity. Qed.

(** ** Populating the children of the logical model *)

Lemma AAEP_get_run (s : Session) (parent : pyarg) (h : heap)
      (records : list record) :
  answers s records ->
  parent_ok h parent ->
  exists attrs,
    Forall2 (complete get_keys) records attrs /\
    AAEP.get (Some s) parent h
    = (Ok (seq (List.length h) (List.length records)),
       decode_all parent attrs h).
Proof.
  intros (b & attrs & Hs & Hb & Hall) Hp. exists attrs. split; [exact Hall|].
  unfold AAEP.get, AAEP.query, lift. rewrite bind_run, Hs.
  rewrite (item_run _ _ _ _ _ Hb).
  rewrite (get_loop_run _ _ _ Hall) by exact Hp. reflexivity.
Qed.

Section populate_children.

Variable external : call -> M unit.
Variables (self : ref) (deep : bool).

(** The class methods defined elsewhere return normally when called on
    behalf of [self], and leave [self] in the heap with its session. *)
Hypothesis external_returns :
  forall (child_class : pyclass) (h0 : heap) (n0 : node),
    h0 !! self = Some n0 ->
    exists h1 n1,
      external (call_for deep (_session n0) self child_class) h0
      = (Ok tt, h1) /\
      h1 !! self = Some n1 /\
      _session n1 = _session n0.


End populate_children.

(** Whatever the class methods do, the calls issued address the declared
    child classes in order, each at most once: a raise only cuts the list
    short. *)
Lemma populate_loop_calls_prefix (external : call -> M unit) (self : ref)
      (deep : bool) (classes : list pyclass) (h : heap) :
  call_class <$> (LogicalModel.populate_loop external self deep classes h).2
  `prefix_of` classes.
Proof.
  revert h. induction classes as [| c classes IH]; intros h.
  - cbn. reflexivity.
  - cbn [LogicalModel.populate_loop].
    destruct (read self h) as [[n | e] h1]; [|apply prefix_nil].
    set (c0 := if deep then CallGetDeep c (_session n) (AObj self)
               else CallGet c (_session n) (AObj self)).
    assert (call_class c0 = c) as Hc by (unfold c0; destruct deep; reflexivity).
    destruct (LogicalModel.dispatch external c0 h1) as [[[] | e] h2].
    + specialize (IH h2).
      destruct (LogicalModel.populate_loop external self deep classes h2)
        as [[r h3] t].
      cbn in IH |- *. rewrite Hc. apply prefix_cons, IH.
    + cbn. rewrite Hc. apply prefix_cons, prefix_nil.
Qed.



Lemma lab_session_answers : answers lab_session lab_records.
Proof.
  exists lab_body, lab_attributes.
  split; [reflexivity|]. split; [reflexivity|].
  apply lab_records_complete, get_keys_subset.
Defined.


Example populate_children_lab :
  fst (fst (LogicalModel.populate_children lab_external 0%nat false false
              lab_model_heap))
  = Ok [1; 2; 3; 4; 5]%nat.
Proof. vm_compute. reflexivity. Qed.

(** ** Encapsulation strings *)

Lemma digit_not_space (c : ascii) (d : Z) :
  PyInt.digit c = Some d -> PyInt.is_space c = false.
Proof.
  destruct c as [[] [] [] [] [] [] [] []]; vm_compute; congruence.
Qed.

Lemma digit_not_sign (c : ascii) (d : Z) :
  PyInt.digit c = Some d -> c <> "+"%char /\ c <> "-"%char.
Proof.
  destruct c as [[] [] [] [] [] [] [] []]; vm_compute; intros [=];
    split; discriminate.
Qed.

Lemma decimal_digits_rstrip (s : string) (acc n : Z) :
  decimal_digits acc s = Some n -> PyInt.rstrip s = s.
Proof.
  revert acc. induction s as [| c s IH]; intros acc Hs; [reflexivity|].
  cbn in Hs. destruct (PyInt.digit c) as [d|] eqn:Hd; [|discriminate].
  cbn. rewrite (IH _ Hs). rewrite (digit_not_space _ _ Hd).
  destruct s; reflexivity.
Qed.

Lemma decimal_digits_digits (s : string) (acc n : Z) (after_digit : bool) :
  decimal_digits acc s = Some n ->
  s <> EmptyString \/ after_digit = true ->
  PyInt.digits acc after_digit s = Some n.
Proof.
  revert acc after_digit. induction s as [| c s IH]; intros acc b Hs Hb.
  - destruct Hb as [Hb | ->]; [congruence | exact Hs].
  - cbn in Hs |- *. destruct (PyInt.digit c) as [d|]; [|discriminate].
    apply IH; [exact Hs | right; reflexivity].
Qed.

Lemma decimal_parse (s : string) (n : Z) :
  decimal s = Some n -> PyInt.parse s = Some n.
Proof.
  destruct s as [| c s]; [discriminate|]. unfold decimal. intros Hs.
  pose proof Hs as Hs'. cbn in Hs'.
  destruct (PyInt.digit c) as [d|] eqn:Hd; [|discriminate].
  unfold PyInt.parse, PyInt.strip. cbn [PyInt.lstrip].
  rewrite (digit_not_space _ _ Hd), (decimal_digits_rstrip _ _ _ Hs).
  destruct (digit_not_sign _ _ Hd) as [Hplus Hminus].
  assert (PyInt.digits 0 false (String c s) = Some n) as Hp.
  { apply decimal_digits_digits; [exact Hs | left; discriminate]. }
  destruct c as [[] [] [] [] [] [] [] []]; try exact Hp; congruence.
Qed.

(** Every string of the documented form is accepted. *)
Lemma is_valid_encap_accepts_vlan_form (s : string) :
  vlan_form s = true -> is_valid_encap (PyStr s) = true.
Proof.
  unfold vlan_form, is_valid_encap. intros [Hpre Hnum]%andb_true_iff.
  rewrite Hpre. cbn [negb].
  destruct (decimal (str_drop 5 s)) as [n|] eqn:Hd; [|discriminate].
  rewrite (decimal_parse _ _ Hd).
  apply andb_true_iff in Hnum as [Hlo Hhi].
  apply Z.leb_le in Hlo, Hhi.
  destruct (Z.ltb_spec n 1); [lia|]. destruct (Z.gtb_spec n 4094); [lia|].
  reflexivity.
Qed.

(** C4: [is_valid_encap] is true for 'vlan-123', 'vlan-0001' and
    'vlan-4094' and false for 'vlan-0', 'vlan-4095', 'vlan-abc', the integer
    123 and 'untagged'; but it is also true for strings that are not of the
    form 'vlan-<n>': [int()] tolerates whitespace around the number, a sign
    and underscores between digits. *)
Theorem is_valid_encap_accepts_lenient_numbers :
  (is_valid_encap (PyStr "vlan-123") = true /\
   is_valid_encap (PyStr "vlan-0001") = true /\
   is_valid_encap (PyStr "vlan-4094") = true) /\
  (is_valid_encap (PyStr "vlan-0") = false /\
   is_valid_encap (PyStr "vlan-4095") = false /\
   is_valid_encap (PyStr "vlan-abc") = false /\
   is_valid_encap (PyInt 123) = false /\
   is_valid_encap (PyStr "untagged") = false) /\
  (is_valid_encap (PyStr "vlan- 12") = true /\
   vlan_form "vlan- 12" = false) /\
  (is_valid_encap (PyStr "vlan-12 ") = true /\
   vlan_form "vlan-12 " = false) /\
  (is_valid_encap (PyStr "vlan-+12") = true /\
   vlan_form "vlan-+12" = false) /\
  (is_valid_encap (PyStr "vlan-1_2") = true /\
   vlan_form "vlan-1_2" = false).
Proof. vm_compute. repeat split; reflexivity. Qed.

(** * Further properties of the two modules *)

(** ** [is_valid_encap] on plain decimal numbers *)






(** ** What the constructor of [AAEP_EPG] guarantees and what it leaves
    behind *)

Lemma bind_Ok_inv {A B : Type} (m : M A) (k : A -> M B) (h h' : heap) (b : B) :
  (m ≫= k) h = (Ok b, h') ->
  exists a h1, m h = (Ok a, h1) /\ k a h1 = (Ok b, h').
Proof.
  rewrite bind_run. destruct (m h) as [[a | e] h1]; [eauto | discriminate].
Qed.

Lemma update_Ok_inv (r : ref) (f : node -> node) (h h' : heap) :
  update r f h = (Ok tt, h') ->
  exists n, h !! r = Some n /\ h' = <[r := f n]> h.
Proof.
  unfold update. destruct (h !! r) as [n|]; [|discriminate].
  intros [= <-]. eauto.
Qed.

Lemma check_Ok_inv (a : pyarg) (c : pyclass) (msg : string) (h h1 : heap)
      (x : node) :
  n_class x <> c ->
  (if arg_truthy a then
     ok ← isinstance a c;
     if negb ok then raise (TypeError msg) else mret tt
   else mret tt) (h ++ [x]) = (Ok tt, h1) ->
  h1 = h ++ [x] /\ (arg_truthy a = false \/ is_instance h a c).
Proof.
  intros Hx. destruct (arg_truthy a) eqn:Ht.
  2:{ intros [= <-]. auto. }
  rewrite bind_run. unfold isinstance. destruct a as [v | r]; [discriminate|].
  destruct ((h ++ [x]) !! r) as [n|] eqn:Hr; [|discriminate].
  destruct (decide (n_class n = c)) as [Hc | Hc].
  - rewrite bool_decide_eq_true_2 by exact Hc. intros [= <-].
    split; [reflexivity|]. right. exists r, n. split; [reflexivity|].
    split; [|exact Hc].
    apply lookup_app_Some in Hr as [Hr | [_ Hr]]; [exact Hr|].
    apply list_lookup_singleton_Some in Hr as [_ <-]. contradiction.
  - rewrite bool_decide_eq_false_2 by exact Hc. discriminate.
Qed.

Lemma encap_check_Ok_inv (encap : pyval) (h h1 : heap) :
  (if py_truthy encap
   then if negb (is_valid_encap encap)
        then raise (ValueError ("Invalid encapsulation string: "
                                +:+ str_take 20 (py_str encap)))
        else mret tt
   else mret tt) h = (Ok tt, h1) ->
  encap_ok encap.
Proof.
  unfold encap_ok. destruct (py_truthy encap); [|auto].
  destruct (is_valid_encap encap); [auto | discriminate].
Qed.

(** X3: whenever the constructor of [AAEP_EPG] returns, the parent was
    falsy or an AAEP, the epg was falsy or an EPG, and the encapsulation it
    stored is falsy or passes [is_valid_encap]: no attachment is ever built
    around a truthy argument of the wrong kind. *)
Theorem AAEP_EPG_init_postcondition (h h' : heap) (parent epg : pyarg)
        (enc : pyval) (r : ref) :
  AAEP_EPG.new parent epg enc h = (Ok r, h') ->
  r = List.length h /\
  (arg_truthy parent = false \/ is_instance h parent cls_AAEP) /\
  (arg_truthy epg = false \/ is_instance h epg cls_EPG) /\
  encap_ok enc /\
  exists n, h' !! r = Some n /\ encap n = enc.
Proof.
  unfold AAEP_EPG.new. rewrite new_object_run. intros Hrun.
  apply bind_Ok_inv in Hrun as ([] & h1 & Hinit & Hret).
  injection Hret as <- <-. split; [reflexivity|].
  unfold AAEP_EPG.__init__ in Hinit.
  apply bind_Ok_inv in Hinit as ([] & h2 & Hc1 & Hinit).
  apply check_Ok_inv in Hc1 as [-> Hparent]; [|discriminate].
  apply bind_Ok_inv in Hinit as ([] & h3 & Hc2 & Hinit).
  apply check_Ok_inv in Hc2 as [-> Hepg]; [|discriminate].
  apply bind_Ok_inv in Hinit as ([] & h4 & Hbase & Hinit).
  apply bind_Ok_inv in Hinit as ([] & h5 & _ & Hinit).
  apply bind_Ok_inv in Hinit as ([] & h6 & _ & Hinit).
  apply bind_Ok_inv in Hinit as ([] & h7 & _ & Hinit).
  apply bind_Ok_inv in Hinit as ([] & h8 & _ & Hinit).
  apply bind_Ok_inv in Hinit as ([] & h9 & _ & Hinit).
  apply bind_Ok_inv in Hinit as ([] & h10 & Hencap & Hinit).
  apply encap_check_Ok_inv in Hencap.
  apply update_Ok_inv in Hinit as (n & Hn & ->).
  repeat split; try assumption.
  exists (set_encap enc n). split; [eapply lookup_insert_same, Hn|].
  reflexivity.
Qed.

Lemma AAEP_EPG_init_postcondition_witness :
  0%nat = List.length (@nil node) /\
  (arg_truthy (AVal PyNone) = false \/ is_instance [] (AVal PyNone) cls_AAEP) /\
  (arg_truthy (AVal (PyStr "")) = false
   \/ is_instance [] (AVal (PyStr "")) cls_EPG) /\
  encap_ok (PyStr "vlan-7") /\
  exists n,
    [mkNode cls_AAEP_EPG (PyStr "asdf") PyNone PyNone PyNone PyNone PyNone
            (PyStr "vlan-7") (AVal (PyStr "")) (AVal PyNone) [] None]
      !! 0%nat = Some n /\
    encap n = PyStr "vlan-7".
Proof.
  apply (AAEP_EPG_init_postcondition [] _ (AVal PyNone) (AVal (PyStr ""))
           (PyStr "vlan-7") 0%nat).
  vm_compute. reflexivity.
Defined.


(** X4: a [TypeError] of the constructor is raised before anything is
    linked: every instance that existed before the call, the parent
    included, is left exactly as it was. *)
Theorem AAEP_EPG_init_TypeError_changes_nothing (h : heap)
        (parent epg : pyarg) (enc : pyval) :
  live h parent ->
  live h epg ->
  (arg_truthy parent = true /\ ~ is_instance h parent cls_AAEP) \/
  (arg_truthy epg = true /\ ~ is_instance h epg cls_EPG) ->
  exists msg h',
    AAEP_EPG.new parent epg enc h = (Raise (TypeError msg), h') /\
    forall r n, h !! r = Some n -> h' !! r = Some n.
Proof.
  intros Hlp Hle Hbad. unfold AAEP_EPG.new, AAEP_EPG.__init__.
  rewrite new_object_run, bind_run, bind_run.
  destruct (check_total parent cls_AAEP
              "Parent must be instance of AccessEntityProfile"
              h (blank cls_AAEP_EPG) Hlp) as [Hok | Hfail].
  - destruct Hbad as [[Ht Hn] | [Ht Hn]].
    + rewrite (check_fail _ _ _ _ _ Hlp Ht Hn) in Hok. discriminate.
    + rewrite Hok, bind_run, (check_fail _ _ _ _ _ Hle Ht Hn).
      eexists _, _. split; [reflexivity|].
      intros r n Hr. apply lookup_app_l_Some, Hr.
  - rewrite Hfail. eexists _, _. split; [reflexivity|].
    intros r n Hr. apply lookup_app_l_Some, Hr.
Qed.

Lemma AAEP_EPG_init_TypeError_changes_nothing_witness :
  exists msg h',
    AAEP_EPG.new (AObj 1%nat) (AObj 1%nat) (PyStr "vlan-5") lab_heap
    = (Raise (TypeError msg), h') /\
    forall r n, lab_heap !! r = Some n -> h' !! r = Some n.
Proof.
  apply (AAEP_EPG_init_TypeError_changes_nothing lab_heap (AObj 1%nat)
           (AObj 1%nat) (PyStr "vlan-5")); [cbn; lia | cbn; lia |].
  left. split; [reflexivity|].
  intros (r & n & Hr & Hn & Hc). injection Hr as <-.
  cbn in Hn. injection Hn as <-. discriminate Hc.
Defined.

(** X5: the encapsulation is validated after the base constructor has run,
    so an attachment rejected with a [ValueError] is already linked: the
    parent AAEP keeps the rejected instance as its last child. *)
Theorem AAEP_EPG_init_ValueError_leaves_child (h : heap) (p : ref)
        (np : node) (epg : pyarg) (enc : pyval) :
  h !! p = Some np ->
  n_class np = cls_AAEP ->
  conforms h epg cls_EPG ->
  py_truthy enc = true ->
  is_valid_encap enc = false ->
  exists h' np' n,
    AAEP_EPG.new (AObj p) epg enc h
    = (Raise (ValueError ("Invalid encapsulation string: "
                          +:+ str_take 20 (py_str enc))), h') /\
    h' !! p = Some np' /\
    _children np' = _children np ++ [List.length h] /\
    h' !! List.length h = Some n /\
    n_class n = cls_AAEP_EPG /\
    _parent n = AObj p.
Proof.
  intros Hnp Hcls He Ht Hv.
  assert (conforms h (AObj p) cls_AAEP) as Hp.
  { right. exists p, np. auto. }
  pose proof (conforms_parent_ok _ _ _ Hp) as Hpo.
  unfold AAEP_EPG.new, AAEP_EPG.__init__.
  rewrite new_object_run, bind_run.
  rewrite bind_run, (check_pass _ _ _ _ _ Hp).
  rewrite bind_run, (check_pass _ _ _ _ _ He).
  rewrite bind_run, (base_init_run h _ _ (AObj p) Hpo).
  run_alters. rewrite !alter_attach_fresh by assumption.
  rewrite bind_run, (tDn_assignment_run _ _ _ _ Hpo He).
  rewrite Ht, Hv. cbn [negb]. rewrite bind_run. unfold raise.
  eexists _, (add_child (List.length h) np), _.
  split; [reflexivity|].
  split.
  { cbn [attach]. rewrite list_lookup_alter_eq.
    rewrite (lookup_app_l_Some _ _ _ _ Hnp). reflexivity. }
  split; [reflexivity|].
  split; [apply attach_lookup_fresh, Hpo|].
  split; reflexivity.
Qed.

Lemma AAEP_EPG_init_ValueError_leaves_child_witness :
  exists h' np' n,
    AAEP_EPG.new (AObj 0%nat) (AObj 1%nat) (PyStr "vlan-4095") lab_heap
    = (Raise (ValueError ("Invalid encapsulation string: "
                          +:+ str_take 20 (py_str (PyStr "vlan-4095")))), h') /\
    h' !! 0%nat = Some np' /\
    _children np'
    = _children (AAEP_built (PyStr "aaep1") (AVal PyNone))
      ++ [List.length lab_heap] /\
    h' !! List.length lab_heap = Some n /\
    n_class n = cls_AAEP_EPG /\
    _parent n = AObj 0%nat.
Proof.
  apply (AAEP_EPG_init_ValueError_leaves_child lab_heap 0%nat
           (AAEP_built (PyStr "aaep1") (AVal PyNone)) (AObj 1%nat)
           (PyStr "vlan-4095")).
  - reflexivity.
  - reflexivity.
  - right. exact lab_heap_EPG.
  - reflexivity.
  - vm_compute. reflexivity.
Defined.

(** X6: what a locally built instance serialises to.  A fresh [AAEP(name)]
    generates the single attribute name (nothing when the name is falsy); a
    fresh [AAEP_EPG] generates only tDn (the epg's dn, when truthy) and
    encap (when truthy), and never dn, lcOwn or childAction. *)
Theorem fresh_instances_generate (h : heap) :
  (forall nm parent,
     parent_ok h parent ->
     exists h' n,
       AAEP.new nm parent h = (Ok (List.length h), h') /\
       h' !! List.length h = Some n /\
       AAEP._generate_attributes n
       = (if py_truthy nm then <["name" := nm]> ∅ else ∅)) /\
  (forall parent epg enc,
     conforms h parent cls_AAEP -> conforms h epg cls_EPG -> encap_ok enc ->
     exists h' n,
       AAEP_EPG.new parent epg enc h = (Ok (List.length h), h') /\
       h' !! List.length h = Some n /\
       AAEP_EPG._generate_attributes n
       = (let a : attributes :=
            if py_truthy (dn_of h epg)
            then <["tDn" := dn_of h epg]> ∅ else ∅ in
          if py_truthy enc then <["encap" := enc]> a else a)).
Proof.
  split.
  - intros nm parent Hp. rewrite (AAEP_new_run _ _ _ Hp).
    eexists _, _. split; [reflexivity|].
    split; [apply attach_lookup_fresh, Hp|]. reflexivity.
  - intros parent epg enc Hp He Hc.
    rewrite (AAEP_EPG_new_run _ _ _ _ Hp He Hc).
    eexists _, _. split; [reflexivity|].
    split; [eapply attach_lookup_fresh, conforms_parent_ok, Hp|].
    reflexivity.
Qed.

Lemma fresh_instances_generate_witness :
  (exists h' n,
     AAEP.new (PyStr "aaep2") (AVal PyNone) lab_heap
     = (Ok (List.length lab_heap), h') /\
     h' !! List.length lab_heap = Some n /\
     AAEP._generate_attributes n
     = (if py_truthy (PyStr "aaep2")
        then <["name" := PyStr "aaep2"]> ∅ else ∅)) /\
  (exists h' n,
     AAEP_EPG.new (AObj 0%nat) (AObj 1%nat) (PyStr "vlan-5") lab_heap
     = (Ok (List.length lab_heap), h') /\
     h' !! List.length lab_heap = Some n /\
     AAEP_EPG._generate_attributes n
     = (let a : attributes :=
          if py_truthy (dn_of lab_heap (AObj 1%nat))
          then <["tDn" := dn_of lab_heap (AObj 1%nat)]> ∅ else ∅ in
        if py_truthy (PyStr "vlan-5")
        then <["encap" := PyStr "vlan-5"]> a else a)).
Proof.
  split.
  - apply (proj1 (fresh_instances_generate lab_heap)). reflexivity.
  - apply (proj2 (fresh_instances_generate lab_heap)).
    + right. exact lab_heap_AAEP.
    + right. exact lab_heap_EPG.
    + right. vm_compute. reflexivity.
Defined.

(** ** The codec of [AAEP_EPG], decode first *)

Lemma filter_kept_lookup (a : attributes) (k : string) :
  k ∈ AAEP_EPG_keys -> filter kept a !! k = emitted (dict_get a k).
Proof.
  intros Hk. rewrite map_lookup_filter. unfold dict_get, emitted.
  destruct (a !! k) as [v|]; cbn; [|reflexivity].
  destruct (py_truthy v) eqn:E.
  - rewrite option_guard_True; [reflexivity | split; assumption].
  - rewrite option_guard_False; [reflexivity|].
    intros [_ Hv]. cbn in Hv. congruence.
Qed.

Lemma filter_kept_other (a : attributes) (k : string) :
  k ∉ AAEP_EPG_keys -> filter kept a !! k = None.
Proof.
  intros Hk. rewrite map_lookup_filter.
  destruct (a !! k) as [v|]; cbn; [|reflexivity].
  rewrite option_guard_False; [reflexivity|]. intros [Hin _]. auto.
Qed.

(** X7: decoding a mapping and encoding the instance again keeps exactly
    the entries of the mapping whose key is one of dn, lcOwn, childAction,
    tDn, encap and whose value is truthy; instance state outside the codec
    (name, epg, parent, children) is not touched by the decoding. *)
Theorem AAEP_EPG_generate_after_populate (h : heap) (r : ref) (n : node)
        (a : attributes) :
  h !! r = Some n ->
  exists n',
    AAEP_EPG._populate_from_attributes r a h = (Ok tt, <[r := n']> h) /\
    AAEP_EPG._generate_attributes n' = filter kept a /\
    name n' = name n /\ epg n' = epg n /\
    _parent n' = _parent n /\ _children n' = _children n.
Proof.
  intros Hr. eexists. split; [apply AAEP_EPG_populate_run, Hr|].
  split; [|repeat split].
  apply map_eq. intros k.
  match goal with
  | |- AAEP_EPG._generate_attributes ?x !! _ = _ =>
      destruct (AAEP_EPG_generate_lookup x) as (H1 & H2 & H3 & H4 & H5 & H6)
  end.
  cbn in H1, H2, H3, H4, H5. unfold BaseACIObject.get_dn_from_attributes in H1.
  destruct (decide (k ∈ AAEP_EPG_keys)) as [Hin | Hout].
  - rewrite (filter_kept_lookup _ _ Hin). unfold AAEP_EPG_keys in Hin.
    repeat (apply elem_of_cons in Hin as [-> | Hin]; [assumption|]).
    inversion Hin.
  - rewrite (filter_kept_other _ _ Hout). apply H6;
      intros ->; apply Hout; unfold AAEP_EPG_keys;
      repeat first [apply list_elem_of_here | apply list_elem_of_further].
Qed.

Lemma AAEP_EPG_generate_after_populate_witness :
  exists n',
    AAEP_EPG._populate_from_attributes 1%nat partial_attributes lab_heap
    = (Ok tt, <[1%nat := n']> lab_heap) /\
    AAEP_EPG._generate_attributes n' = filter kept partial_attributes /\
    name n' = name lab_epg /\ epg n' = epg lab_epg /\
    _parent n' = _parent lab_epg /\ _children n' = _children lab_epg.
Proof.
  apply (AAEP_EPG_generate_after_populate lab_heap 1%nat lab_epg
           partial_attributes).
  reflexivity.
Defined.

Lemma restored_idempotent (v : pyval) : restored (restored v) = restored v.
Proof.
  unfold restored. destruct (py_truthy v) eqn:E; [rewrite E|]; reflexivity.
Qed.

(** X8: one round trip through the codec normalises an attachment; a second
    round trip changes nothing at all. *)
Theorem AAEP_EPG_roundtrip_idempotent (h : heap) (r : ref) (n : node) :
  h !! r = Some n ->
  exists n',
    AAEP_EPG._populate_from_attributes r (AAEP_EPG._generate_attributes n) h
    = (Ok tt, <[r := n']> h) /\
    AAEP_EPG._populate_from_attributes r (AAEP_EPG._generate_attributes n')
      (<[r := n']> h)
    = (Ok tt, <[r := n']> h).
Proof.
  intros Hr.
  destruct (AAEP_EPG_roundtrip_fields h r n Hr)
    as (n' & Hrun & Edn & Elc & Eca & Etd & Een).
  exists n'. split; [exact Hrun|].
  pose proof (lookup_insert_same h r n n' Hr) as Hr'.
  rewrite (AAEP_EPG_populate_run _ _ _ _ Hr'), update_twice.
  destruct (AAEP_EPG_generate_lookup n') as (Hdn & Hlc & Hca & Htd & Hen & _).
  unfold BaseACIObject.get_dn_from_attributes.
  rewrite (dict_get_emitted _ _ _ Hdn), (dict_get_emitted _ _ _ Hlc),
    (dict_get_emitted _ _ _ Hca), (dict_get_emitted _ _ _ Htd),
    (dict_get_emitted _ _ _ Hen).
  rewrite Edn, Elc, Eca, Etd, Een, !restored_idempotent.
  rewrite <- Edn, <- Elc, <- Eca, <- Etd, <- Een.
  destruct n'. reflexivity.
Qed.

Lemma AAEP_EPG_roundtrip_idempotent_witness :
  exists n',
    AAEP_EPG._populate_from_attributes 0%nat
      (AAEP_EPG._generate_attributes attachment_with_empty_encap)
      [attachment_with_empty_encap]
    = (Ok tt, <[0%nat := n']> [attachment_with_empty_encap]) /\
    AAEP_EPG._populate_from_attributes 0%nat
      (AAEP_EPG._generate_attributes n')
      (<[0%nat := n']> [attachment_with_empty_encap])
    = (Ok tt, <[0%nat := n']> [attachment_with_empty_encap]).
Proof.
  apply (AAEP_EPG_roundtrip_idempotent [attachment_with_empty_encap] 0%nat
           attachment_with_empty_encap).
  reflexivity.
Defined.

(** ** The queries of [AAEP]: failures, empty answers and the heap *)

(** X9: [AAEP.get] and [AAEP.get_by_name] allocate nothing when there is
    nothing to decode.  Without a session they raise [AttributeError]; an
    exception of the session propagates unchanged; a body without
    ['imdata'] raises [KeyError('imdata')]; an empty ['imdata'] list gives
    the empty list, respectively [None].  In every case the heap is left as
    it was. *)
Theorem AAEP_queries_without_records (parent : pyarg) (aaep_name : pyval)
        (h : heap) :
  (AAEP.get None parent h
   = (Raise (AttributeError "'NoneType' object has no attribute 'get'"), h) /\
   AAEP.get_by_name None aaep_name h
   = (Raise (AttributeError "'NoneType' object has no attribute 'get'"), h)) /\
  (forall s e,
     session_get s AAEP.query_url = Raise e ->
     AAEP.get (Some s) parent h = (Raise e, h) /\
     AAEP.get_by_name (Some s) aaep_name h = (Raise e, h)) /\
  (forall s b,
     session_get s AAEP.query_url = Ok b ->
     b !! "imdata" = None ->
     AAEP.get (Some s) parent h = (Raise (KeyError "imdata"), h) /\
     AAEP.get_by_name (Some s) aaep_name h = (Raise (KeyError "imdata"), h)) /\
  (forall s b,
     session_get s AAEP.query_url = Ok b ->
     b !! "imdata" = Some [] ->
     AAEP.get (Some s) parent h = (Ok [], h) /\
     AAEP.get_by_name (Some s) aaep_name h = (Ok (AVal PyNone), h)).
Proof.
  split; [split; reflexivity|].
  split; [|split].
  - intros s e Hs. unfold AAEP.get, AAEP.get_by_name, AAEP.query, lift.
    rewrite !bind_run, Hs. split; reflexivity.
  - intros s b Hs Hb. unfold AAEP.get, AAEP.get_by_name, AAEP.query, lift.
    rewrite !bind_run, Hs. unfold item. rewrite Hb. split; reflexivity.
  - intros s b Hs Hb. unfold AAEP.get, AAEP.get_by_name, AAEP.query, lift.
    rewrite !bind_run, Hs. rewrite !(item_run _ _ _ _ _ Hb).
    split; reflexivity.
Qed.

Lemma AAEP_queries_without_records_witness :
  AAEP.get (Some {| session_get := fun _ => Raise (TransportError "timeout") |})
    (AObj 0%nat) lab_heap
  = (Raise (TransportError "timeout"), lab_heap) /\
  AAEP.get_by_name
    (Some {| session_get := fun _ => Raise (TransportError "timeout") |})
    (PyStr "x") lab_heap
  = (Raise (TransportError "timeout"), lab_heap).
Proof.
  apply (proj1 (proj2 (AAEP_queries_without_records (AObj 0%nat) (PyStr "x")
                         lab_heap))
           {| session_get := fun _ => Raise (TransportError "timeout") |}
           (TransportError "timeout")).
  reflexivity.
Defined.

(** X10: [AAEP.get] only adds to the heap.  The references it returns are
    pairwise distinct and did not exist before the call, the heap grows by
    one instance per record, every older instance other than the parent is
    unchanged, and the parent changes in its children list only. *)
Theorem AAEP_get_frame (s : Session) (parent : pyarg) (h : heap)
        (records : list record) :
  answers s records ->
  parent_ok h parent ->
  exists refs h',
    AAEP.get (Some s) parent h = (Ok refs, h') /\
    NoDup refs /\
    Forall (fun r => h !! r = None) refs /\
    List.length h' = (List.length h + List.length records)%nat /\
    (forall r n, h !! r = Some n -> parent <> AObj r -> h' !! r = Some n) /\
    (forall p np, parent = AObj p -> h !! p = Some np ->
                  h' !! p = Some (set_children (_children np ++ refs) np)).
Proof.
  intros Hans Hp.
  destruct (AAEP_get_run s parent h records Hans Hp) as (attrs & Hall & Hget).
  eexists _, _. split; [exact Hget|].
  split; [apply NoDup_seq|].
  split.
  { apply Forall_forall. intros r [Hge _]%elem_of_seq.
    apply lookup_ge_None_2, Hge. }
  split.
  { rewrite decode_all_length, (Forall2_length _ _ _ Hall). reflexivity. }
  split.
  - intros r n Hr Hne. rewrite decode_all_old; [exact Hr | | exact Hne].
    eapply lookup_lt_Some, Hr.
  - intros p np -> Hnp. rewrite (decode_all_parent _ _ _ _ Hnp).
    rewrite (Forall2_length _ _ _ Hall). reflexivity.
Qed.

Lemma AAEP_get_frame_witness :
  exists refs h',
    AAEP.get (Some lab_session) (AObj 0%nat) lab_model_heap = (Ok refs, h') /\
    NoDup refs /\
    Forall (fun r => lab_model_heap !! r = None) refs /\
    List.length h'
    = (List.length lab_model_heap + List.length lab_records)%nat /\
    (forall r n, lab_model_heap !! r = Some n -> AObj 0%nat <> AObj r ->
                 h' !! r = Some n) /\
    (forall p np, AObj 0%nat = AObj p -> lab_model_heap !! p = Some np ->
                  h' !! p = Some (set_children (_children np ++ refs) np)).
Proof.
  apply (AAEP_get_frame lab_session (AObj 0%nat) lab_model_heap lab_records).
  - exact lab_session_answers.
  - cbn. lia.
Defined.

(** ** A [KeyError] in the middle of [AAEP.get] *)

Lemma get_loop_prefix (parent : pyarg) (pre : list record)
      (attrs : list attributes) (rest : list record) :
  Forall2 (complete get_keys) pre attrs ->
  forall (h : heap) (resp : list ref),
    parent_ok h parent ->
    AAEP.get_loop parent (pre ++ rest) resp h =
    AAEP.get_loop parent rest
      (resp ++ seq (List.length h) (List.length pre))
      (decode_all parent attrs h).
Proof.
  induction 1 as [| r a pre attrs Hra _ IH]; intros h resp Hp.
  - cbn. rewrite app_nil_r. reflexivity.
  - cbn [app AAEP.get_loop]. rewrite bind_run, (get_step_run _ _ _ _ Hp Hra).
    rewrite IH by (apply parent_ok_grow, Hp).
    rewrite length_attach_fresh. cbn [decode_all List.length seq].
    rewrite <- app_assoc. reflexivity.
Qed.

Lemma parent_ok_decode_all (parent : pyarg) (attrs : list attributes)
      (h : heap) :
  parent_ok h parent -> parent_ok (decode_all parent attrs h) parent.
Proof.
  destruct parent as [v | p]; cbn [parent_ok]; [auto|].
  rewrite decode_all_length. lia.
Qed.

(** One iteration of the decoding loop, without closing the goal. *)
Ltac step_decoding Hp Hr :=
  repeat first
    [ erewrite attribute_missing by eassumption
    | erewrite attribute_run by eassumption
    | rewrite (attribute_data_run _ _ _ _ Hr)
    | rewrite bind_run, (AAEP_new_run _ _ _ Hp)
    | progress (run_alters; rewrite ?alter_attach_fresh by exact Hp)
    | rewrite bind_run; progress (run_alters;
                                  rewrite ?alter_attach_fresh by exact Hp) ].

(** A record with a name but without one of dn, lcOwn, childAction: the
    instance is constructed and linked before the missing key is reached. *)
Lemma get_step_partial (h : heap) (parent : pyarg) (r : record)
      (a : attributes) (v : pyval) :
  parent_ok h parent ->
  record_attributes r = Some a ->
  a !! "name" = Some v ->
  a !! "dn" = None \/ a !! "lcOwn" = None \/ a !! "childAction" = None ->
  exists key x,
    a !! key = None /\
    AAEP.get_step parent r h
    = (Raise (KeyError key),
       attach parent (List.length h) (h ++ [x])).
Proof.
  intros Hp Hr Hname Hmiss.
  destruct (a !! "dn") as [v2|] eqn:H2.
  2:{ eexists "dn", _. split; [exact H2|].
      unfold AAEP.get_step, BaseACIObject._populate_from_attributes.
      step_decoding Hp Hr. reflexivity. }
  destruct (a !! "lcOwn") as [v3|] eqn:H3.
  2:{ eexists "lcOwn", _. split; [exact H3|].
      unfold AAEP.get_step, BaseACIObject._populate_from_attributes.
      step_decoding Hp Hr. reflexivity. }
  destruct (a !! "childAction") as [v4|] eqn:H4.
  2:{ eexists "childAction", _. split; [exact H4|].
      unfold AAEP.get_step, BaseACIObject._populate_from_attributes.
      step_decoding Hp Hr. reflexivity. }
  destruct Hmiss as [? | [? | ?]]; discriminate.
Qed.

Lemma attach_parent_children (h : heap) (p : ref) (np x : node) :
  h !! p = Some np ->
  attach (AObj p) (List.length h) (h ++ [x]) !! p
  = Some (add_child (List.length h) np).
Proof.
  intros Hp. cbn [attach]. rewrite list_lookup_alter_eq.
  rewrite (lookup_app_l_Some _ _ _ _ Hp). reflexivity.
Qed.

(** X11: [AAEP.get] does not undo its work when a record is incomplete.
    When the records before it are complete and the record itself has a
    name but lacks dn, lcOwn or childAction, the call raises the [KeyError]
    of that key, and the parent keeps as children the instances of all
    earlier records and the partly decoded instance of the failing one.  When
    the record lacks its name, only the earlier instances stay. *)
Theorem AAEP_get_KeyError_keeps_children (s : Session) (p : ref) (np : node)
        (h : heap) (b : body) (pre post : list record)
        (attrs : list attributes) (r : record) (a : attributes) :
  session_get s AAEP.query_url = Ok b ->
  b !! "imdata" = Some (pre ++ r :: post) ->
  Forall2 (complete get_keys) pre attrs ->
  h !! p = Some np ->
  record_attributes r = Some a ->
  (forall v,
     a !! "name" = Some v ->
     a !! "dn" = None \/ a !! "lcOwn" = None \/ a !! "childAction" = None ->
     exists key h' np',
       a !! key = None /\
       AAEP.get (Some s) (AObj p) h = (Raise (KeyError key), h') /\
       h' !! p = Some np' /\
       _children np'
       = _children np ++ seq (List.length h) (S (List.length pre))) /\
  (a !! "name" = None ->
   exists h' np',
     AAEP.get (Some s) (AObj p) h = (Raise (KeyError "name"), h') /\
     h' !! p = Some np' /\
     _children np' = _children np ++ seq (List.length h) (List.length pre)).
Proof.
  intros Hs Hb Hall Hnp Hr.
  assert (parent_ok h (AObj p)) as Hp by (cbn; eapply lookup_lt_Some, Hnp).
  pose proof (parent_ok_decode_all (AObj p) attrs h Hp) as Hp'.
  pose proof (decode_all_parent p attrs h np Hnp) as Hnp'.
  rewrite <- (Forall2_length _ _ _ Hall) in Hnp'.
  split.
  - intros v Hname Hmiss.
    destruct (get_step_partial _ _ _ _ _ Hp' Hr Hname Hmiss)
      as (key & x & Hkey & Hstep).
    eexists key, _, _. split; [exact Hkey|]. split.
    + unfold AAEP.get, AAEP.query, lift.
      rewrite bind_run, Hs, (item_run _ _ _ _ _ Hb).
      rewrite (get_loop_prefix _ _ _ _ Hall) by exact Hp.
      cbn [AAEP.get_loop]. rewrite bind_run, Hstep. reflexivity.
    + split; [apply attach_parent_children, Hnp'|].
      cbn [add_child set_children _children].
      rewrite decode_all_length, <- (Forall2_length _ _ _ Hall).
      rewrite seq_S, app_assoc. reflexivity.
  - intros Hname. eexists _, _. split.
    + unfold AAEP.get, AAEP.query, lift.
      rewrite bind_run, Hs, (item_run _ _ _ _ _ Hb).
      rewrite (get_loop_prefix _ _ _ _ Hall) by exact Hp.
      cbn [AAEP.get_loop]. rewrite bind_run. unfold AAEP.get_step.
      erewrite attribute_missing by eassumption. reflexivity.
    + split; [exact Hnp' | reflexivity].
Qed.

Lemma AAEP_get_KeyError_keeps_children_witness :
  exists key h' np',
    partial_attributes !! key = None /\
    AAEP.get (Some partial_session) (AObj 0%nat) lab_heap
    = (Raise (KeyError key), h') /\
    h' !! 0%nat = Some np' /\
    _children np'
    = _children (AAEP_built (PyStr "aaep1") (AVal PyNone))
      ++ seq (List.length lab_heap) 2.
Proof.
  refine (proj1 (AAEP_get_KeyError_keeps_children partial_session 0%nat
                   (AAEP_built (PyStr "aaep1") (AVal PyNone)) lab_heap
                   {[ "imdata" := partial_records ]}
                   [profile "default" "uni/infra/attentp-default" "local" "" ""]
                   []
                   [profile_attributes "default" "uni/infra/attentp-default"
                      "local" "" ""]
                   partial_record partial_attributes
                   eq_refl eq_refl _ eq_refl eq_refl)
            (PyStr "x") eq_refl _).
  - constructor; [|constructor].
    apply profile_complete, get_keys_subset.
  - right. left. reflexivity.
Defined.

(** ** [AAEP.get_by_name] and the heap *)

Lemma get_by_name_loop_prefix (aaep_name : pyval) (pre : list record)
      (attrs : list attributes) (rest : list record) :
  Forall2 (complete get_by_name_keys) pre attrs ->
  Forall (fun r => ~ matches aaep_name r) pre ->
  forall h : heap,
    AAEP.get_by_name_loop aaep_name (pre ++ rest) h
    = AAEP.get_by_name_loop aaep_name rest (h ++ (AAEP_fetched <$> attrs)).
Proof.
  induction 1 as [| r a pre attrs Hra _ IH]; intros Hn h.
  - cbn. rewrite app_nil_r. reflexivity.
  - apply Forall_cons in Hn as [Hr Hn].
    cbn [app AAEP.get_by_name_loop].
    rewrite bind_run, (get_by_name_step_run _ _ _ Hra).
    rewrite (not_matches_false _ _ _ Hra Hr), (IH Hn).
    rewrite fmap_cons, <- app_assoc. reflexivity.
Qed.

Lemma get_by_name_found_run (s : Session) (aaep_name : pyval) (h : heap)
      (b : body) (pre post : list record) (attrs : list attributes)
      (r : record) (a : attributes) :
  session_get s AAEP.query_url = Ok b ->
  b !! "imdata" = Some (pre ++ r :: post) ->
  Forall2 (complete get_by_name_keys) pre attrs ->
  Forall (fun r' => ~ matches aaep_name r') pre ->
  complete get_by_name_keys r a ->
  matches aaep_name r ->
  AAEP.get_by_name (Some s) aaep_name h
  = (Ok (AObj (List.length h + List.length pre)%nat),
     h ++ (AAEP_fetched <$> (attrs ++ [a]))).
Proof.
  intros Hs Hb Hall Hn Ha Hm.
  unfold AAEP.get_by_name, AAEP.query, lift.
  rewrite bind_run, Hs, (item_run _ _ _ _ _ Hb).
  rewrite (get_by_name_loop_prefix _ _ _ _ Hall Hn).
  cbn [AAEP.get_by_name_loop].
  rewrite bind_run, (get_by_name_step_run _ _ _ Ha).
  apply (decoded_name_matches _ _ _ Ha) in Hm. rewrite Hm.
  rewrite length_app, length_fmap, <- (Forall2_length _ _ _ Hall).
  rewrite fmap_app, app_assoc. reflexivity.
Qed.

Lemma get_by_name_not_found_run (s : Session) (aaep_name : pyval) (h : heap)
      (b : body) (records : list record) (attrs : list attributes) :
  session_get s AAEP.query_url = Ok b ->
  b !! "imdata" = Some records ->
  Forall2 (complete get_by_name_keys) records attrs ->
  Forall (fun r' => ~ matches aaep_name r') records ->
  AAEP.get_by_name (Some s) aaep_name h
  = (Ok (AVal PyNone), h ++ (AAEP_fetched <$> attrs)).
Proof.
  intros Hs Hb Hall Hn.
  unfold AAEP.get_by_name, AAEP.query, lift.
  rewrite bind_run, Hs, (item_run _ _ _ _ _ Hb).
  rewrite <- (app_nil_r records).
  rewrite (get_by_name_loop_prefix _ _ _ _ Hall Hn). reflexivity.
Qed.

Lemma fetched_detached (attrs : list attributes) :
  Forall (fun n => n_class n = cls_AAEP /\ _parent n = AVal PyNone
                   /\ _children n = [])
         (AAEP_fetched <$> attrs).
Proof.
  apply Forall_fmap, Forall_forall. intros a _. repeat split.
Qed.

(** X12: [AAEP.get_by_name] never touches an existing instance and never
    links anything: the heap after the call is the heap before it followed
    by one parentless, childless AAEP per record scanned (all records up to
    and including the match, or all records when none matches), and the
    instance returned is the last of these. *)
Theorem AAEP_get_by_name_frame (s : Session) (aaep_name : pyval) (h : heap)
        (b : body) (records : list record) :
  session_get s AAEP.query_url = Ok b ->
  b !! "imdata" = Some records ->
  (forall pre r post attrs a,
     records = pre ++ r :: post ->
     Forall2 (complete get_by_name_keys) pre attrs ->
     Forall (fun r' => ~ matches aaep_name r') pre ->
     complete get_by_name_keys r a ->
     matches aaep_name r ->
     exists new,
       AAEP.get_by_name (Some s) aaep_name h
       = (Ok (AObj (List.length h + List.length pre)%nat), h ++ new) /\
       List.length new = S (List.length pre) /\
       Forall (fun n => n_class n = cls_AAEP /\ _parent n = AVal PyNone
                        /\ _children n = []) new) /\
  (forall attrs,
     Forall2 (complete get_by_name_keys) records attrs ->
     Forall (fun r' => ~ matches aaep_name r') records ->
     exists new,
       AAEP.get_by_name (Some s) aaep_name h = (Ok (AVal PyNone), h ++ new) /\
       List.length new = List.length records /\
       Forall (fun n => n_class n = cls_AAEP /\ _parent n = AVal PyNone
                        /\ _children n = []) new).
Proof.
  intros Hs Hb. split.
  - intros pre r post attrs a -> Hall Hn Ha Hm.
    exists (AAEP_fetched <$> (attrs ++ [a])).
    split; [eapply get_by_name_found_run; eassumption|].
    split; [|apply fetched_detached].
    rewrite length_fmap, length_app, <- (Forall2_length _ _ _ Hall).
    cbn. lia.
  - intros attrs Hall Hn. exists (AAEP_fetched <$> attrs).
    split; [eapply get_by_name_not_found_run; eassumption|].
    split; [|apply fetched_detached].
    rewrite length_fmap. symmetry. apply (Forall2_length _ _ _ Hall).
Qed.

Lemma AAEP_get_by_name_frame_witness :
  (exists new,
     AAEP.get_by_name (Some lab_session) (PyStr "x") lab_heap
     = (Ok (AObj (List.length lab_heap + 1)%nat), lab_heap ++ new) /\
     List.length new = 2%nat /\
     Forall (fun n => n_class n = cls_AAEP /\ _parent n = AVal PyNone
                      /\ _children n = []) new) /\
  (exists new,
     AAEP.get_by_name (Some lab_session) (PyStr "missing") lab_heap
     = (Ok (AVal PyNone), lab_heap ++ new) /\
     List.length new = List.length lab_records /\
     Forall (fun n => n_class n = cls_AAEP /\ _parent n = AVal PyNone
                      /\ _children n = []) new).
Proof.
  split.
  - apply (proj1 (AAEP_get_by_name_frame lab_session (PyStr "x") lab_heap
                    lab_body lab_records eq_refl eq_refl)
             [profile "default" "uni/infra/attentp-default" "local" "" ""]
             (profile "x" "uni/infra/attentp-x" "local" "" "lab")
             [profile "prod" "uni/infra/attentp-prod" "policy" "" ""]
             [profile_attributes "default" "uni/infra/attentp-default"
                "local" "" ""]
             (profile_attributes "x" "uni/infra/attentp-x" "local" "" "lab")).
    + reflexivity.
    + constructor; [|constructor].
      apply profile_complete. intros k Hk. exact Hk.
    + apply Forall_cons; split; [|apply Forall_nil_2].
      apply profile_not_matches. reflexivity.
    + apply profile_complete. intros k Hk. exact Hk.
    + apply profile_matches. reflexivity.
  - apply (proj2 (AAEP_get_by_name_frame lab_session (PyStr "missing")
                    lab_heap lab_body lab_records eq_refl eq_refl)
             lab_attributes).
    + apply lab_records_complete. intros k Hk. exact Hk.
    + repeat (apply Forall_cons; split;
              [apply profile_not_matches; reflexivity|]).
      apply Forall_nil_2.
Defined.

Lemma complete_weaken (keys keys' : list string) (r : record)
      (a : attributes) :
  keys' ⊆ keys -> complete keys r a -> complete keys' r a.
Proof.
  intros Hsub [Hr Hk]. split; [exact Hr|].
  rewrite Forall_forall in Hk |- *. intros k Hin. apply Hk, Hsub, Hin.
Qed.

(** X13: [get_by_name] and [get] agree.  When [get_by_name] finds a record,
    the instance it returns has the name, dn, lcOwn and childAction of the
    instance [get] builds for the same record, which sits in the result of
    [get] at the position of the first record with that name. *)
Theorem AAEP_get_by_name_agrees_with_get (s : Session) (aaep_name : pyval)
        (h : heap) (b : body) (pre post : list record)
        (attrs_pre attrs_post : list attributes) (r : record)
        (a : attributes) :
  session_get s AAEP.query_url = Ok b ->
  b !! "imdata" = Some (pre ++ r :: post) ->
  Forall2 (complete get_by_name_keys) pre attrs_pre ->
  Forall (fun r' => ~ matches aaep_name r') pre ->
  complete get_by_name_keys r a ->
  matches aaep_name r ->
  Forall2 (complete get_keys) post attrs_post ->
  exists o h1 n1 refs h2 n2,
    AAEP.get_by_name (Some s) aaep_name h = (Ok (AObj o), h1) /\
    h1 !! o = Some n1 /\
    AAEP.get (Some s) (AVal PyNone) h = (Ok refs, h2) /\
    refs !! List.length pre = Some o /\
    h2 !! o = Some n2 /\
    name n1 = name n2 /\ dn n1 = dn n2 /\
    lcOwn n1 = lcOwn n2 /\ childAction n1 = childAction n2.
Proof.
  intros Hs Hb Hpre Hn Ha Hm Hpost.
  assert (Forall2 (complete get_keys) (pre ++ r :: post)
                  (attrs_pre ++ a :: attrs_post)) as Hall.
  { apply Forall2_app; [|constructor; [|exact Hpost]].
    - eapply Forall2_impl; [exact Hpre|].
      intros r' a'. apply complete_weaken, get_keys_subset.
    - eapply complete_weaken; [apply get_keys_subset | exact Ha]. }
  pose proof (Forall2_length _ _ _ Hpre) as Hlen.
  exists (List.length h + List.length pre)%nat,
    (h ++ (AAEP_fetched <$> (attrs_pre ++ [a]))), (AAEP_fetched a),
    (seq (List.length h) (List.length (pre ++ r :: post))),
    (decode_all (AVal PyNone) (attrs_pre ++ a :: attrs_post) h),
    (AAEP_decoded a (AVal PyNone)).
  split; [eapply get_by_name_found_run; eassumption|].
  split.
  { rewrite lookup_app_r by lia.
    replace (List.length h + List.length pre - List.length h)%nat
      with (List.length attrs_pre) by lia.
    rewrite list_lookup_fmap, list_lookup_middle by reflexivity.
    reflexivity. }
  split.
  { unfold AAEP.get, AAEP.query, lift.
    rewrite bind_run, Hs, (item_run _ _ _ _ _ Hb).
    rewrite (get_loop_run _ _ _ Hall) by reflexivity. reflexivity. }
  split.
  { apply lookup_seq_lt. rewrite length_app. cbn. lia. }
  split.
  { apply decode_all_new; [reflexivity|].
    rewrite Hlen. apply list_lookup_middle. reflexivity. }
  repeat split.
Qed.

Lemma AAEP_get_by_name_agrees_with_get_witness :
  exists o h1 n1 refs h2 n2,
    AAEP.get_by_name (Some lab_session) (PyStr "x") lab_heap
    = (Ok (AObj o), h1) /\
    h1 !! o = Some n1 /\
    AAEP.get (Some lab_session) (AVal PyNone) lab_heap = (Ok refs, h2) /\
    refs !! 1%nat = Some o /\
    h2 !! o = Some n2 /\
    name n1 = name n2 /\ dn n1 = dn n2 /\
    lcOwn n1 = lcOwn n2 /\ childAction n1 = childAction n2.
Proof.
  apply (AAEP_get_by_name_agrees_with_get lab_session (PyStr "x") lab_heap
           lab_body
           [profile "default" "uni/infra/attentp-default" "local" "" ""]
           [profile "prod" "uni/infra/attentp-prod" "policy" "" ""]
           [profile_attributes "default" "uni/infra/attentp-default"
              "local" "" ""]
           [profile_attributes "prod" "uni/infra/attentp-prod" "policy" "" ""]
           (profile "x" "uni/infra/attentp-x" "local" "" "lab")
           (profile_attributes "x" "uni/infra/attentp-x" "local" "" "lab")).
  - reflexivity.
  - reflexivity.
  - constructor; [|constructor].
    apply profile_complete. intros k Hk. exact Hk.
  - apply Forall_cons; split; [|apply Forall_nil_2].
    apply profile_not_matches. reflexivity.
  - apply profile_complete. intros k Hk. exact Hk.
  - apply profile_matches. reflexivity.
  - constructor; [|constructor].
    apply profile_complete, get_keys_subset.
Defined.

(** X14: the comparison [name == aaep_name] is between [str(...)] and the
    argument as given, so a lookup by anything that is not a string (the
    integer 5, [None], [True]) finds nothing: every record is decoded and
    the call returns [None]. *)
Theorem AAEP_get_by_name_non_string (s : Session) (aaep_name : pyval)
        (h : heap) (b : body) (records : list record)
        (attrs : list attributes) :
  (forall x, aaep_name <> PyStr x) ->
  session_get s AAEP.query_url = Ok b ->
  b !! "imdata" = Some records ->
  Forall2 (complete get_by_name_keys) records attrs ->
  AAEP.get_by_name (Some s) aaep_name h
  = (Ok (AVal PyNone), h ++ (AAEP_fetched <$> attrs)).
Proof.
  intros Hns Hs Hb Hall.
  eapply get_by_name_not_found_run; [exact Hs | exact Hb | exact Hall |].
  apply Forall_forall. intros r _ (a & v & _ & _ & Hm).
  destruct aaep_name as [| | | x]; try discriminate Hm.
  apply (Hns x). reflexivity.
Qed.

Lemma AAEP_get_by_name_non_string_witness :
  AAEP.get_by_name (Some lab_session) (PyInt 5) lab_heap
  = (Ok (AVal PyNone), lab_heap ++ (AAEP_fetched <$> lab_attributes)).
Proof.
  apply (AAEP_get_by_name_non_string lab_session (PyInt 5) lab_heap lab_body
           lab_records lab_attributes).
  - intros x. discriminate.
  - reflexivity.
  - reflexivity.
  - apply lab_records_complete. intros k Hk. exact Hk.
Defined.

(** X15: decoding a record with [get_by_name] and encoding the instance
    with [_generate_attributes] gives back the record's descr, dn, lcOwn
    and childAction wherever they are truthy, the name as a string, and
    nothing else: falsy attributes (the usual empty childAction) and
    attributes outside the five are dropped. *)
Theorem AAEP_generate_after_get_by_name (s : Session) (aaep_name : pyval)
        (h : heap) (b : body) (pre post : list record)
        (attrs : list attributes) (r : record) (a : attributes) :
  session_get s AAEP.query_url = Ok b ->
  b !! "imdata" = Some (pre ++ r :: post) ->
  Forall2 (complete get_by_name_keys) pre attrs ->
  Forall (fun r' => ~ matches aaep_name r') pre ->
  complete get_by_name_keys r a ->
  matches aaep_name r ->
  exists o h' n,
    AAEP.get_by_name (Some s) aaep_name h = (Ok (AObj o), h') /\
    h' !! o = Some n /\
    AAEP._generate_attributes n !! "name"
    = emitted (PyStr (decoded_name a)) /\
    (forall k, k ∈ ["descr"; "dn"; "lcOwn"; "childAction"] ->
               AAEP._generate_attributes n !! k = emitted (dict_get a k)) /\
    (forall k, k ∉ get_by_name_keys ->
               AAEP._generate_attributes n !! k = None).
Proof.
  intros Hs Hb Hall Hn Ha Hm.
  pose proof (Forall2_length _ _ _ Hall) as Hlen.
  eexists _, _, (AAEP_fetched a).
  split; [eapply get_by_name_found_run; eassumption|].
  split.
  { rewrite lookup_app_r by lia.
    replace (List.length h + List.length pre - List.length h)%nat
      with (List.length attrs) by lia.
    rewrite list_lookup_fmap, list_lookup_middle by reflexivity.
    reflexivity. }
  destruct (AAEP_generate_lookup (AAEP_fetched a))
    as (H1 & H2 & H3 & H4 & H5 & H6).
  split; [exact H1|]. split.
  - intros k Hk.
    repeat (apply elem_of_cons in Hk as [-> | Hk]; [assumption|]).
    inversion Hk.
  - intros k Hk. apply H6; intros ->; apply Hk; unfold get_by_name_keys;
      repeat first [apply list_elem_of_here | apply list_elem_of_further].
Qed.

Lemma AAEP_generate_after_get_by_name_witness :
  exists o h' n,
    AAEP.get_by_name (Some lab_session) (PyStr "x") lab_heap
    = (Ok (AObj o), h') /\
    h' !! o = Some n /\
    AAEP._generate_attributes n !! "name"
    = emitted (PyStr (decoded_name
                        (profile_attributes "x" "uni/infra/attentp-x"
                           "local" "" "lab"))) /\
    (forall k, k ∈ ["descr"; "dn"; "lcOwn"; "childAction"] ->
               AAEP._generate_attributes n !! k
               = emitted (dict_get
                            (profile_attributes "x" "uni/infra/attentp-x"
                               "local" "" "lab") k)) /\
    (forall k, k ∉ get_by_name_keys ->
               AAEP._generate_attributes n !! k = None).
Proof.
  apply (AAEP_generate_after_get_by_name lab_session (PyStr "x") lab_heap
           lab_body
           [profile "default" "uni/infra/attentp-default" "local" "" ""]
           [profile "prod" "uni/infra/attentp-prod" "policy" "" ""]
           [profile_attributes "default" "uni/infra/attentp-default"
              "local" "" ""]
           (profile "x" "uni/infra/attentp-x" "local" "" "lab")
           (profile_attributes "x" "uni/infra/attentp-x" "local" "" "lab")).
  - reflexivity.
  - reflexivity.
  - constructor; [|constructor].
    apply profile_complete. intros k Hk. exact Hk.
  - apply Forall_cons; split; [|apply Forall_nil_2].
    apply profile_not_matches. reflexivity.
  - apply profile_complete. intros k Hk. exact Hk.
  - apply profile_matches. reflexivity.
Defined.

(** ** The logical model: construction, population and failures *)

(** X16: [LogicalModel.get] does not consult the controller: it builds one
    new model around the session it is given, links it under the parent when
    there is one, and returns it as a one-element list. *)
Theorem LogicalModel_get_singleton (h : heap) (session : option Session)
        (parent : pyarg) :
  parent_ok h parent ->
  exists h' n,
    LogicalModel.get session parent h = (Ok [List.length h], h') /\
    h' !! List.length h = Some n /\
    n_class n = cls_LogicalModel /\
    name n = PyStr "" /\ dn n = PyStr "logical" /\
    _session n = session /\ _parent n = parent /\ _children n = [] /\
    (forall r m, h !! r = Some m -> parent <> AObj r -> h' !! r = Some m) /\
    (forall p np, parent = AObj p -> h !! p = Some np ->
                  h' !! p = Some (add_child (List.length h) np)).
Proof.
  intros Hp. unfold LogicalModel.get.
  rewrite bind_run, (LogicalModel_new_run _ _ _ Hp).
  eexists _, _. split; [reflexivity|].
  split; [apply attach_lookup_fresh, Hp|].
  repeat (split; [reflexivity|]).
  split.
  - intros r m Hr Hne.
    destruct (attach_lookup_old h parent
                (LogicalModel_built session parent) r m Hr)
      as (m' & Hm' & _ & _ & Heq).
    rewrite Hm', (Heq Hne). reflexivity.
  - intros p np -> Hnp. apply attach_parent_children, Hnp.
Qed.

Lemma LogicalModel_get_singleton_witness :
  exists h' n,
    LogicalModel.get (Some lab_session) (AVal PyNone) lab_heap
    = (Ok [List.length lab_heap], h') /\
    h' !! List.length lab_heap = Some n /\
    n_class n = cls_LogicalModel /\
    name n = PyStr "" /\ dn n = PyStr "logical" /\
    _session n = Some lab_session /\ _parent n = AVal PyNone /\
    _children n = [] /\
    (forall r m, lab_heap !! r = Some m -> AVal PyNone <> AObj r ->
                 h' !! r = Some m) /\
    (forall p np, AVal PyNone = AObj p -> lab_heap !! p = Some np ->
                  h' !! p = Some (add_child (List.length lab_heap) np)).
Proof.
  apply (LogicalModel_get_singleton lab_heap (Some lab_session) (AVal PyNone)).
  reflexivity.
Defined.




(** The loop over the child classes is sequential: running it over
    [pre ++ rest] is running it over [pre] and, unless that raised, over
    [rest] from the heap so reached. *)
Lemma populate_loop_app (external : call -> M unit) (self : ref)
      (deep : bool) (pre rest : list pyclass) (h : heap) :
  LogicalModel.populate_loop external self deep (pre ++ rest) h
  = match LogicalModel.populate_loop external self deep pre h with
    | (Ok _, h1, t1) =>
        let '(r, h2, t2) :=
          LogicalModel.populate_loop external self deep rest h1 in
        (r, h2, t1 ++ t2)
    | (Raise e, h1, t1) => (Raise e, h1, t1)
    end.
Proof.
  revert h. induction pre as [| c pre IH]; intros h.
  - cbn. destruct (LogicalModel.populate_loop external self deep rest h)
      as [[r h2] t2]. reflexivity.
  - cbn [app LogicalModel.populate_loop].
    destruct (read self h) as [[n | e] h1]; [|reflexivity].
    destruct (LogicalModel.dispatch external _ h1) as [[[] | e] h2];
      [|reflexivity].
    rewrite IH.
    destruct (LogicalModel.populate_loop external self deep pre h2)
      as [[[[] | e] h3] t1]; [|reflexivity].
    destruct (LogicalModel.populate_loop external self deep rest h3)
      as [[r h4] t2]. reflexivity.
Qed.

(** X18: an exception raised by the getter of a child class leaves
    [populate_children] unchanged; the classes declared after the failing
    one are never called, no children list is returned, and the heap stays
    as the failing call left it, with whatever the earlier calls attached. *)
Theorem populate_children_propagates (external : call -> M unit)
        (self : ref) (deep include_concrete : bool) (h h1 h2 : heap)
        (pre post : list pyclass) (c : pyclass) (n1 : node)
        (t1 : list call) (e : exn) :
  LogicalModel._get_children_classes = pre ++ c :: post ->
  LogicalModel.populate_loop external self deep pre h = (Ok tt, h1, t1) ->
  h1 !! self = Some n1 ->
  LogicalModel.dispatch external (call_for deep (_session n1) self c) h1
  = (Raise e, h2) ->
  LogicalModel.populate_children external self deep include_concrete h
  = (Raise e, h2, t1 ++ [call_for deep (_session n1) self c]) /\
  call_class <$> (t1 ++ [call_for deep (_session n1) self c]) = pre ++ [c].
Proof.
  intros Hcls Hpre Hn1 Hfail. split.
  - unfold LogicalModel.populate_children. rewrite Hcls.
    rewrite populate_loop_app, Hpre.
    cbn [LogicalModel.populate_loop]. unfold read. rewrite Hn1.
    fold (call_for deep (_session n1) self c). rewrite Hfail. reflexivity.
  - rewrite fmap_app. f_equal; [|destruct deep; reflexivity].
    clear Hcls Hn1 Hfail. revert h h1 t1 Hpre.
    induction pre as [| c0 pre IH]; intros h h1 t1 Hpre.
    + cbn in Hpre. injection Hpre as _ <-. reflexivity.
    + cbn [LogicalModel.populate_loop] in Hpre.
      destruct (read self h) as [[n | e0] h0]; [|discriminate].
      destruct (LogicalModel.dispatch external _ h0) as [[[] | e0] h3];
        [|discriminate].
      destruct (LogicalModel.populate_loop external self deep pre h3)
        as [[r h4] t] eqn:Hrest.
      injection Hpre as -> -> <-.
      rewrite fmap_cons, (IH _ _ _ Hrest).
      destruct deep; reflexivity.
Qed.

Lemma populate_children_propagates_witness :
  exists (h2 : heap) (t1 : list call) (n1 : node),
    LogicalModel.populate_children lab_external_failing 0%nat false false
      lab_model_heap
    = (Raise (TransportError "503"), h2,
       t1 ++ [call_for false (_session n1) 0%nat cls_PhysDomain]) /\
    call_class <$> (t1 ++ [call_for false (_session n1) 0%nat cls_PhysDomain])
    = [cls_Tenant] ++ [cls_PhysDomain].
Proof.
  eexists _, _, _.
  eapply (populate_children_propagates lab_external_failing 0%nat false
            false lab_model_heap _ _ [cls_Tenant] [cls_AAEP]
            cls_PhysDomain _ _ (TransportError "503")).
  - reflexivity.
  - reflexivity.
  - reflexivity.
  - reflexivity.
Defined.

(** ** [get_parent] *)

Lemma get_parent_run (r : ref) (n : node) (h : heap) :
  h !! r = Some n ->
  AAEP.get_parent r h = (Ok (_parent n), h) /\
  AAEP_EPG.get_parent r h = (Ok (_parent n), h).
Proof.
  intros Hr. unfold AAEP.get_parent, AAEP_EPG.get_parent.
  rewrite !bind_run. unfold read. rewrite Hr. split; reflexivity.
Qed.

(** X19: [get_parent] gives back the parent an instance was built under:
    for a new [AAEP], for a new [AAEP_EPG], and for every instance that
    [AAEP.get] returns, whatever the dn of its record. *)
Theorem get_parent_after_construction (h : heap) :
  (forall nm parent,
     parent_ok h parent ->
     exists h1,
       AAEP.new nm parent h = (Ok (List.length h), h1) /\
       AAEP.get_parent (List.length h) h1 = (Ok parent, h1)) /\
  (forall parent epg enc,
     conforms h parent cls_AAEP -> conforms h epg cls_EPG -> encap_ok enc ->
     exists h1,
       AAEP_EPG.new parent epg enc h = (Ok (List.length h), h1) /\
       AAEP_EPG.get_parent (List.length h) h1 = (Ok parent, h1)) /\
  (forall s parent records,
     answers s records ->
     parent_ok h parent ->
     exists refs h1,
       AAEP.get (Some s) parent h = (Ok refs, h1) /\
       List.length refs = List.length records /\
       Forall (fun r => AAEP.get_parent r h1 = (Ok parent, h1)) refs).
Proof.
  split; [|split].
  - intros nm parent Hp. rewrite (AAEP_new_run _ _ _ Hp).
    eexists. split; [reflexivity|].
    apply (get_parent_run _ (AAEP_built nm parent)).
    apply attach_lookup_fresh, Hp.
  - intros parent epg enc Hp He Hc.
    rewrite (AAEP_EPG_new_run _ _ _ _ Hp He Hc).
    eexists. split; [reflexivity|].
    apply (get_parent_run _ (AAEP_EPG_built h parent epg enc)).
    eapply attach_lookup_fresh, conforms_parent_ok, Hp.
  - intros s parent records Hans Hp.
    destruct (AAEP_get_run s parent h records Hans Hp)
      as (attrs & Hall & Hget).
    eexists _, _. split; [exact Hget|].
    split; [apply length_seq|].
    apply Forall_forall. intros r [Hge Hlt]%elem_of_seq.
    rewrite (Forall2_length _ _ _ Hall) in Hlt.
    destruct (lookup_lt_is_Some_2 attrs (r - List.length h)) as [a Ha];
      [lia|].
    apply (get_parent_run _ (AAEP_decoded a parent)).
    replace r with (List.length h + (r - List.length h))%nat at 1 by lia.
    apply decode_all_new; assumption.
Qed.

Lemma get_parent_after_construction_witness :
  (exists h1,
     AAEP_EPG.new (AObj 0%nat) (AObj 1%nat) (PyStr "vlan-5") lab_heap
     = (Ok (List.length lab_heap), h1) /\
     AAEP_EPG.get_parent (List.length lab_heap) h1 = (Ok (AObj 0%nat), h1)) /\
  (exists refs h1,
     AAEP.get (Some lab_session) (AObj 0%nat) lab_model_heap = (Ok refs, h1) /\
     List.length refs = List.length lab_records /\
     Forall (fun r => AAEP.get_parent r h1 = (Ok (AObj 0%nat), h1)) refs).
Proof.
  split.
  - apply (proj1 (proj2 (get_parent_after_construction lab_heap))).
    + right. exact lab_heap_AAEP.
    + right. exact lab_heap_EPG.
    + right. vm_compute. reflexivity.
  - apply (proj2 (proj2 (get_parent_after_construction lab_model_heap))).
    + exact lab_session_answers.
    + cbn. lia.
Defined.
